(** * mydealz_bot: conversation state and notification resolution

    A shallow embedding of the two chat-framework integrations of the bot:
    [Methods] (src/chat/methods.py, python-telegram-bot, synchronous) and
    [Handlers] (src/telegram/handlers.py, aiogram, asynchronous), together
    with the Python built-ins they rely on ([str.find], slicing,
    [str.replace], [int], [float], [round]). *)

From Stdlib Require Import ZArith String Ascii List Bool Lia.
From stdpp Require Import base option gmap strings list fin_maps.

Local Open Scope string_scope.
Local Open Scope Z_scope.

(** ** Python string built-ins

    A [str] is a sequence of code points. It is held here as the bytes of
    its UTF-8 encoding. [find], slicing at the indices [find] gives,
    [replace] of one ASCII character by another and [<] yield on the bytes
    the encoding of what Python yields on the code points; [int], [float]
    and [lower] look at the code points themselves. *)

Module Py.

(** [s.startswith(p)] *)
Fixpoint startswith (p s : string) : bool :=
  match p, s with
  | EmptyString, _ => true
  | String a p', String b s' => if Ascii.eqb a b then startswith p' s' else false
  | String _ _, EmptyString => false
  end.

(** [s.find(sub)]: the lowest index at which [sub] occurs, [None] for -1. *)
Fixpoint find (sub s : string) : option nat :=
  if startswith sub s then Some O
  else match s with
       | EmptyString => None
       | String _ s' => S <$> find sub s'
       end.

(** [s[n:]] *)
Fixpoint drop (n : nat) (s : string) : string :=
  match n, s with
  | O, _ => s
  | S n', String _ s' => drop n' s'
  | S _, EmptyString => EmptyString
  end.

(** [s[:n]] *)
Fixpoint take (n : nat) (s : string) : string :=
  match n, s with
  | O, _ => EmptyString
  | S n', String a s' => String a (take n' s')
  | S _, EmptyString => EmptyString
  end.

(** [s.find(sub, start)] for [0 <= start]. *)
Definition find_from (sub s : string) (start : nat) : option nat :=
  if (String.length s <? start)%nat then None
  else Nat.add start <$> find sub (drop start s).

(** [s[start:stop]] for non-negative indices. *)
Definition slice (s : string) (start stop : nat) : string :=
  take (stop - start) (drop start s).

(** [s.replace(a, b)] for one-character [a] and [b]. *)
Fixpoint replace (a b : ascii) (s : string) : string :=
  match s with
  | EmptyString => EmptyString
  | String c s' => String (if Ascii.eqb c a then b else c) (replace a b s')
  end.

(** [c in s] for a character [c]. *)
Fixpoint contains (c : ascii) (s : string) : bool :=
  match s with
  | EmptyString => false
  | String a s' => Ascii.eqb a c || contains c s'
  end.

(** *** Code points *)

Definition code (c : ascii) : Z := Z.of_N (N_of_ascii c).

Definition byte (n : Z) : ascii := ascii_of_N (Z.to_N n).

(** The six payload bits of a continuation byte. *)
Definition continuation (c : ascii) : option Z :=
  let b := code c in
  if (128 <=? b) && (b <? 192) then Some (b - 128) else None.

(** The code points of a UTF-8 byte string; [None] when the bytes are not
    the encoding of a [str] (a stray or missing continuation byte, an overlong
    form, a surrogate, a value above U+10FFFF). *)
Fixpoint decode (s : string) : option (list Z) :=
  match s with
  | EmptyString => Some []
  | String c0 s1 =>
      let b0 := code c0 in
      if b0 <? 128 then cons b0 <$> decode s1
      else if b0 <? 192 then None
      else if b0 <? 224 then
        match s1 with
        | String c1 s2 =>
            match continuation c1 with
            | Some x1 =>
                let cp := (b0 - 192) * 64 + x1 in
                if 128 <=? cp then cons cp <$> decode s2 else None
            | None => None
            end
        | _ => None
        end
      else if b0 <? 240 then
        match s1 with
        | String c1 (String c2 s3) =>
            match continuation c1, continuation c2 with
            | Some x1, Some x2 =>
                let cp := ((b0 - 224) * 64 + x1) * 64 + x2 in
                if (2048 <=? cp) && negb ((55296 <=? cp) && (cp <=? 57343))
                then cons cp <$> decode s3
                else None
            | _, _ => None
            end
        | _ => None
        end
      else if b0 <? 248 then
        match s1 with
        | String c1 (String c2 (String c3 s4)) =>
            match continuation c1, continuation c2, continuation c3 with
            | Some x1, Some x2, Some x3 =>
                let cp := (((b0 - 240) * 64 + x1) * 64 + x2) * 64 + x3 in
                if (65536 <=? cp) && (cp <=? 1114111)
                then cons cp <$> decode s4
                else None
            | _, _, _ => None
            end
        | _ => None
        end
      else None
  end.

(** The UTF-8 encoding of a code point. *)
Definition encode_point (cp : Z) : string :=
  if cp <? 128 then String (byte cp) ""
  else if cp <? 2048 then
    String (byte (192 + cp / 64)) (String (byte (128 + cp mod 64)) "")
  else if cp <? 65536 then
    String (byte (224 + cp / 4096))
      (String (byte (128 + (cp / 64) mod 64)) (String (byte (128 + cp mod 64)) ""))
  else
    String (byte (240 + cp / 262144))
      (String (byte (128 + (cp / 4096) mod 64))
         (String (byte (128 + (cp / 64) mod 64)) (String (byte (128 + cp mod 64)) ""))).

Fixpoint encode (l : list Z) : string :=
  match l with
  | [] => ""
  | cp :: l' => encode_point cp ++ encode l'
  end.

(** *** The character database

    The tables of Unicode 14.0.0, the version CPython 3.11 is built with. *)

(** The code points of the digit zero of every decimal digit set outside
    ASCII (general category Nd); the nine that follow each are the digits 1
    to 9. *)
Definition decimal_zeros : list Z :=
  [1632; 1776; 1984; 2406; 2534; 2662; 2790; 2918; 3046; 3174; 3302; 3430;
   3558; 3664; 3792; 3872; 4160; 4240; 6112; 6160; 6470; 6608; 6784; 6800;
   6992; 7088; 7232; 7248; 42528; 43216; 43264; 43472; 43504; 43600; 44016;
   65296; 66720; 68912; 69734; 69872; 69942; 70096; 70384; 70736; 70864; 71248;
   71360; 71472; 71904; 72016; 72784; 73040; 73120; 92768; 92864; 93008;
   120782; 120792; 120802; 120812; 120822; 123200; 123632; 125264; 130032].

(** The white space outside ASCII. *)
Definition spaces : list Z :=
  [133; 160; 5760; 8192; 8193; 8194; 8195; 8196; 8197; 8198; 8199; 8200; 8201;
   8202; 8232; 8233; 8239; 8287; 12288].

(** The simple lower-case mappings: every [step]-th code point from [first]
    to [last] maps to itself plus [delta]. *)
Definition lower_ranges : list (Z * Z * Z * Z) :=
  [(65, 90, 1, 32); (192, 214, 1, 32); (216, 222, 1, 32); (256, 302, 2, 1);
   (306, 310, 2, 1); (313, 327, 2, 1); (330, 374, 2, 1); (376, 376, 1, (-121));
   (377, 381, 2, 1); (385, 385, 1, 210); (386, 388, 2, 1); (390, 390, 1, 206);
   (391, 391, 1, 1); (393, 394, 1, 205); (395, 395, 1, 1); (398, 398, 1, 79);
   (399, 399, 1, 202); (400, 400, 1, 203); (401, 401, 1, 1);
   (403, 403, 1, 205); (404, 404, 1, 207); (406, 406, 1, 211);
   (407, 407, 1, 209); (408, 408, 1, 1); (412, 412, 1, 211);
   (413, 413, 1, 213); (415, 415, 1, 214); (416, 420, 2, 1);
   (422, 422, 1, 218); (423, 423, 1, 1); (425, 425, 1, 218); (428, 428, 1, 1);
   (430, 430, 1, 218); (431, 431, 1, 1); (433, 434, 1, 217); (435, 437, 2, 1);
   (439, 439, 1, 219); (440, 440, 1, 1); (444, 444, 1, 1); (452, 452, 1, 2);
   (453, 453, 1, 1); (455, 455, 1, 2); (456, 456, 1, 1); (458, 458, 1, 2);
   (459, 475, 2, 1); (478, 494, 2, 1); (497, 497, 1, 2); (498, 500, 2, 1);
   (502, 502, 1, (-97)); (503, 503, 1, (-56)); (504, 542, 2, 1);
   (544, 544, 1, (-130)); (546, 562, 2, 1); (570, 570, 1, 10795);
   (571, 571, 1, 1); (573, 573, 1, (-163)); (574, 574, 1, 10792);
   (577, 577, 1, 1); (579, 579, 1, (-195)); (580, 580, 1, 69);
   (581, 581, 1, 71); (582, 590, 2, 1); (880, 882, 2, 1); (886, 886, 1, 1);
   (895, 895, 1, 116); (902, 902, 1, 38); (904, 906, 1, 37); (908, 908, 1, 64);
   (910, 911, 1, 63); (913, 929, 1, 32); (932, 939, 1, 32); (975, 975, 1, 8);
   (984, 1006, 2, 1); (1012, 1012, 1, (-60)); (1015, 1015, 1, 1);
   (1017, 1017, 1, (-7)); (1018, 1018, 1, 1); (1021, 1023, 1, (-130));
   (1024, 1039, 1, 80); (1040, 1071, 1, 32); (1120, 1152, 2, 1);
   (1162, 1214, 2, 1); (1216, 1216, 1, 15); (1217, 1229, 2, 1);
   (1232, 1326, 2, 1); (1329, 1366, 1, 48); (4256, 4293, 1, 7264);
   (4295, 4295, 1, 7264); (4301, 4301, 1, 7264); (5024, 5103, 1, 38864);
   (5104, 5109, 1, 8); (7312, 7354, 1, (-3008)); (7357, 7359, 1, (-3008));
   (7680, 7828, 2, 1); (7838, 7838, 1, (-7615)); (7840, 7934, 2, 1);
   (7944, 7951, 1, (-8)); (7960, 7965, 1, (-8)); (7976, 7983, 1, (-8));
   (7992, 7999, 1, (-8)); (8008, 8013, 1, (-8)); (8025, 8031, 2, (-8));
   (8040, 8047, 1, (-8)); (8072, 8079, 1, (-8)); (8088, 8095, 1, (-8));
   (8104, 8111, 1, (-8)); (8120, 8121, 1, (-8)); (8122, 8123, 1, (-74));
   (8124, 8124, 1, (-9)); (8136, 8139, 1, (-86)); (8140, 8140, 1, (-9));
   (8152, 8153, 1, (-8)); (8154, 8155, 1, (-100)); (8168, 8169, 1, (-8));
   (8170, 8171, 1, (-112)); (8172, 8172, 1, (-7)); (8184, 8185, 1, (-128));
   (8186, 8187, 1, (-126)); (8188, 8188, 1, (-9)); (8486, 8486, 1, (-7517));
   (8490, 8490, 1, (-8383)); (8491, 8491, 1, (-8262)); (8498, 8498, 1, 28);
   (8544, 8559, 1, 16); (8579, 8579, 1, 1); (9398, 9423, 1, 26);
   (11264, 11311, 1, 48); (11360, 11360, 1, 1); (11362, 11362, 1, (-10743));
   (11363, 11363, 1, (-3814)); (11364, 11364, 1, (-10727));
   (11367, 11371, 2, 1); (11373, 11373, 1, (-10780));
   (11374, 11374, 1, (-10749)); (11375, 11375, 1, (-10783));
   (11376, 11376, 1, (-10782)); (11378, 11378, 1, 1); (11381, 11381, 1, 1);
   (11390, 11391, 1, (-10815)); (11392, 11490, 2, 1); (11499, 11501, 2, 1);
   (11506, 11506, 1, 1); (42560, 42604, 2, 1); (42624, 42650, 2, 1);
   (42786, 42798, 2, 1); (42802, 42862, 2, 1); (42873, 42875, 2, 1);
   (42877, 42877, 1, (-35332)); (42878, 42886, 2, 1); (42891, 42891, 1, 1);
   (42893, 42893, 1, (-42280)); (42896, 42898, 2, 1); (42902, 42920, 2, 1);
   (42922, 42922, 1, (-42308)); (42923, 42923, 1, (-42319));
   (42924, 42924, 1, (-42315)); (42925, 42925, 1, (-42305));
   (42926, 42926, 1, (-42308)); (42928, 42928, 1, (-42258));
   (42929, 42929, 1, (-42282)); (42930, 42930, 1, (-42261));
   (42931, 42931, 1, 928); (42932, 42946, 2, 1); (42948, 42948, 1, (-48));
   (42949, 42949, 1, (-42307)); (42950, 42950, 1, (-35384));
   (42951, 42953, 2, 1); (42960, 42960, 1, 1); (42966, 42968, 2, 1);
   (42997, 42997, 1, 1); (65313, 65338, 1, 32); (66560, 66599, 1, 40);
   (66736, 66771, 1, 40); (66928, 66938, 1, 39); (66940, 66954, 1, 39);
   (66956, 66962, 1, 39); (66964, 66965, 1, 39); (68736, 68786, 1, 64);
   (71840, 71871, 1, 32); (93760, 93791, 1, 32); (125184, 125217, 1, 34)].

(** The ranges of the property Cased. *)
Definition cased_ranges : list (Z * Z) :=
  [(65, 90); (97, 122); (170, 170); (181, 181); (186, 186); (192, 214);
   (216, 246); (248, 442); (444, 447); (452, 659); (661, 696); (704, 705);
   (736, 740); (837, 837); (880, 883); (886, 887); (890, 893); (895, 895);
   (902, 902); (904, 906); (908, 908); (910, 929); (931, 1013); (1015, 1153);
   (1162, 1327); (1329, 1366); (1376, 1416); (4256, 4293); (4295, 4295);
   (4301, 4301); (4304, 4346); (4349, 4351); (5024, 5109); (5112, 5117);
   (7296, 7304); (7312, 7354); (7357, 7359); (7424, 7615); (7680, 7957);
   (7960, 7965); (7968, 8005); (8008, 8013); (8016, 8023); (8025, 8025);
   (8027, 8027); (8029, 8029); (8031, 8061); (8064, 8116); (8118, 8124);
   (8126, 8126); (8130, 8132); (8134, 8140); (8144, 8147); (8150, 8155);
   (8160, 8172); (8178, 8180); (8182, 8188); (8305, 8305); (8319, 8319);
   (8336, 8348); (8450, 8450); (8455, 8455); (8458, 8467); (8469, 8469);
   (8473, 8477); (8484, 8484); (8486, 8486); (8488, 8488); (8490, 8493);
   (8495, 8500); (8505, 8505); (8508, 8511); (8517, 8521); (8526, 8526);
   (8544, 8575); (8579, 8580); (9398, 9449); (11264, 11492); (11499, 11502);
   (11506, 11507); (11520, 11557); (11559, 11559); (11565, 11565);
   (42560, 42605); (42624, 42653); (42786, 42887); (42891, 42894);
   (42896, 42954); (42960, 42961); (42963, 42963); (42965, 42969);
   (42997, 42998); (43000, 43002); (43824, 43866); (43868, 43880);
   (43888, 43967); (64256, 64262); (64275, 64279); (65313, 65338);
   (65345, 65370); (66560, 66639); (66736, 66771); (66776, 66811);
   (66928, 66938); (66940, 66954); (66956, 66962); (66964, 66965);
   (66967, 66977); (66979, 66993); (66995, 67001); (67003, 67004);
   (67456, 67456); (67459, 67461); (67463, 67504); (67506, 67514);
   (68736, 68786); (68800, 68850); (71840, 71903); (93760, 93823);
   (119808, 119892); (119894, 119964); (119966, 119967); (119970, 119970);
   (119973, 119974); (119977, 119980); (119982, 119993); (119995, 119995);
   (119997, 120003); (120005, 120069); (120071, 120074); (120077, 120084);
   (120086, 120092); (120094, 120121); (120123, 120126); (120128, 120132);
   (120134, 120134); (120138, 120144); (120146, 120485); (120488, 120512);
   (120514, 120538); (120540, 120570); (120572, 120596); (120598, 120628);
   (120630, 120654); (120656, 120686); (120688, 120712); (120714, 120744);
   (120746, 120770); (120772, 120779); (122624, 122633); (122635, 122654);
   (125184, 125251); (127280, 127305); (127312, 127337); (127344, 127369)].

(** The ranges of the property Case_Ignorable. *)
Definition case_ignorable_ranges : list (Z * Z) :=
  [(39, 39); (46, 46); (58, 58); (94, 94); (96, 96); (168, 168); (173, 173);
   (175, 175); (180, 180); (183, 184); (688, 879); (884, 885); (890, 890);
   (900, 901); (903, 903); (1155, 1161); (1369, 1369); (1375, 1375);
   (1425, 1469); (1471, 1471); (1473, 1474); (1476, 1477); (1479, 1479);
   (1524, 1524); (1536, 1541); (1552, 1562); (1564, 1564); (1600, 1600);
   (1611, 1631); (1648, 1648); (1750, 1757); (1759, 1768); (1770, 1773);
   (1807, 1807); (1809, 1809); (1840, 1866); (1958, 1968); (2027, 2037);
   (2042, 2042); (2045, 2045); (2070, 2093); (2137, 2139); (2184, 2184);
   (2192, 2193); (2200, 2207); (2249, 2306); (2362, 2362); (2364, 2364);
   (2369, 2376); (2381, 2381); (2385, 2391); (2402, 2403); (2417, 2417);
   (2433, 2433); (2492, 2492); (2497, 2500); (2509, 2509); (2530, 2531);
   (2558, 2558); (2561, 2562); (2620, 2620); (2625, 2626); (2631, 2632);
   (2635, 2637); (2641, 2641); (2672, 2673); (2677, 2677); (2689, 2690);
   (2748, 2748); (2753, 2757); (2759, 2760); (2765, 2765); (2786, 2787);
   (2810, 2815); (2817, 2817); (2876, 2876); (2879, 2879); (2881, 2884);
   (2893, 2893); (2901, 2902); (2914, 2915); (2946, 2946); (3008, 3008);
   (3021, 3021); (3072, 3072); (3076, 3076); (3132, 3132); (3134, 3136);
   (3142, 3144); (3146, 3149); (3157, 3158); (3170, 3171); (3201, 3201);
   (3260, 3260); (3263, 3263); (3270, 3270); (3276, 3277); (3298, 3299);
   (3328, 3329); (3387, 3388); (3393, 3396); (3405, 3405); (3426, 3427);
   (3457, 3457); (3530, 3530); (3538, 3540); (3542, 3542); (3633, 3633);
   (3636, 3642); (3654, 3662); (3761, 3761); (3764, 3772); (3782, 3782);
   (3784, 3789); (3864, 3865); (3893, 3893); (3895, 3895); (3897, 3897);
   (3953, 3966); (3968, 3972); (3974, 3975); (3981, 3991); (3993, 4028);
   (4038, 4038); (4141, 4144); (4146, 4151); (4153, 4154); (4157, 4158);
   (4184, 4185); (4190, 4192); (4209, 4212); (4226, 4226); (4229, 4230);
   (4237, 4237); (4253, 4253); (4348, 4348); (4957, 4959); (5906, 5908);
   (5938, 5939); (5970, 5971); (6002, 6003); (6068, 6069); (6071, 6077);
   (6086, 6086); (6089, 6099); (6103, 6103); (6109, 6109); (6155, 6159);
   (6211, 6211); (6277, 6278); (6313, 6313); (6432, 6434); (6439, 6440);
   (6450, 6450); (6457, 6459); (6679, 6680); (6683, 6683); (6742, 6742);
   (6744, 6750); (6752, 6752); (6754, 6754); (6757, 6764); (6771, 6780);
   (6783, 6783); (6823, 6823); (6832, 6862); (6912, 6915); (6964, 6964);
   (6966, 6970); (6972, 6972); (6978, 6978); (7019, 7027); (7040, 7041);
   (7074, 7077); (7080, 7081); (7083, 7085); (7142, 7142); (7144, 7145);
   (7149, 7149); (7151, 7153); (7212, 7219); (7222, 7223); (7288, 7293);
   (7376, 7378); (7380, 7392); (7394, 7400); (7405, 7405); (7412, 7412);
   (7416, 7417); (7468, 7530); (7544, 7544); (7579, 7679); (8125, 8125);
   (8127, 8129); (8141, 8143); (8157, 8159); (8173, 8175); (8189, 8190);
   (8203, 8207); (8216, 8217); (8228, 8228); (8231, 8231); (8234, 8238);
   (8288, 8292); (8294, 8303); (8305, 8305); (8319, 8319); (8336, 8348);
   (8400, 8432); (11388, 11389); (11503, 11505); (11631, 11631);
   (11647, 11647); (11744, 11775); (11823, 11823); (12293, 12293);
   (12330, 12333); (12337, 12341); (12347, 12347); (12441, 12446);
   (12540, 12542); (40981, 40981); (42232, 42237); (42508, 42508);
   (42607, 42610); (42612, 42621); (42623, 42623); (42652, 42655);
   (42736, 42737); (42752, 42785); (42864, 42864); (42888, 42890);
   (42994, 42996); (43000, 43001); (43010, 43010); (43014, 43014);
   (43019, 43019); (43045, 43046); (43052, 43052); (43204, 43205);
   (43232, 43249); (43263, 43263); (43302, 43309); (43335, 43345);
   (43392, 43394); (43443, 43443); (43446, 43449); (43452, 43453);
   (43471, 43471); (43493, 43494); (43561, 43566); (43569, 43570);
   (43573, 43574); (43587, 43587); (43596, 43596); (43632, 43632);
   (43644, 43644); (43696, 43696); (43698, 43700); (43703, 43704);
   (43710, 43711); (43713, 43713); (43741, 43741); (43756, 43757);
   (43763, 43764); (43766, 43766); (43867, 43871); (43881, 43883);
   (44005, 44005); (44008, 44008); (44013, 44013); (64286, 64286);
   (64434, 64450); (65024, 65039); (65043, 65043); (65056, 65071);
   (65106, 65106); (65109, 65109); (65279, 65279); (65287, 65287);
   (65294, 65294); (65306, 65306); (65342, 65342); (65344, 65344);
   (65392, 65392); (65438, 65439); (65507, 65507); (65529, 65531);
   (66045, 66045); (66272, 66272); (66422, 66426); (67456, 67461);
   (67463, 67504); (67506, 67514); (68097, 68099); (68101, 68102);
   (68108, 68111); (68152, 68154); (68159, 68159); (68325, 68326);
   (68900, 68903); (69291, 69292); (69446, 69456); (69506, 69509);
   (69633, 69633); (69688, 69702); (69744, 69744); (69747, 69748);
   (69759, 69761); (69811, 69814); (69817, 69818); (69821, 69821);
   (69826, 69826); (69837, 69837); (69888, 69890); (69927, 69931);
   (69933, 69940); (70003, 70003); (70016, 70017); (70070, 70078);
   (70089, 70092); (70095, 70095); (70191, 70193); (70196, 70196);
   (70198, 70199); (70206, 70206); (70367, 70367); (70371, 70378);
   (70400, 70401); (70459, 70460); (70464, 70464); (70502, 70508);
   (70512, 70516); (70712, 70719); (70722, 70724); (70726, 70726);
   (70750, 70750); (70835, 70840); (70842, 70842); (70847, 70848);
   (70850, 70851); (71090, 71093); (71100, 71101); (71103, 71104);
   (71132, 71133); (71219, 71226); (71229, 71229); (71231, 71232);
   (71339, 71339); (71341, 71341); (71344, 71349); (71351, 71351);
   (71453, 71455); (71458, 71461); (71463, 71467); (71727, 71735);
   (71737, 71738); (71995, 71996); (71998, 71998); (72003, 72003);
   (72148, 72151); (72154, 72155); (72160, 72160); (72193, 72202);
   (72243, 72248); (72251, 72254); (72263, 72263); (72273, 72278);
   (72281, 72283); (72330, 72342); (72344, 72345); (72752, 72758);
   (72760, 72765); (72767, 72767); (72850, 72871); (72874, 72880);
   (72882, 72883); (72885, 72886); (73009, 73014); (73018, 73018);
   (73020, 73021); (73023, 73029); (73031, 73031); (73104, 73105);
   (73109, 73109); (73111, 73111); (73459, 73460); (78896, 78904);
   (92912, 92916); (92976, 92982); (92992, 92995); (94031, 94031);
   (94095, 94111); (94176, 94177); (94179, 94180); (110576, 110579);
   (110581, 110587); (110589, 110590); (113821, 113822); (113824, 113827);
   (118528, 118573); (118576, 118598); (119143, 119145); (119155, 119170);
   (119173, 119179); (119210, 119213); (119362, 119364); (121344, 121398);
   (121403, 121452); (121461, 121461); (121476, 121476); (121499, 121503);
   (121505, 121519); (122880, 122886); (122888, 122904); (122907, 122913);
   (122915, 122916); (122918, 122922); (123184, 123197); (123566, 123566);
   (123628, 123631); (125136, 125142); (125252, 125259); (127995, 127999);
   (917505, 917505); (917536, 917631); (917760, 917999)].
Definition in_ranges (cp : Z) (ranges : list (Z * Z)) : bool :=
  existsb (fun r => (fst r <=? cp) && (cp <=? snd r)) ranges.

(** [_PyUnicode_IsCased] *)
Definition is_cased (cp : Z) : bool := in_ranges cp cased_ranges.

(** [_PyUnicode_IsCaseIgnorable] *)
Definition is_case_ignorable (cp : Z) : bool := in_ranges cp case_ignorable_ranges.

(** [Py_UNICODE_ISSPACE] outside ASCII. *)
Definition is_unicode_space (cp : Z) : bool := existsb (Z.eqb cp) spaces.

(** [Py_UNICODE_TODECIMAL] outside ASCII: the value of a decimal digit. *)
Definition to_decimal (cp : Z) : option Z :=
  match List.find (fun z => (z <=? cp) && (cp <? z + 10)) decimal_zeros with
  | Some z => Some (cp - z)
  | None => None
  end.

(** [_PyUnicode_ToLowerFull]: the lower case of a code point, which for
    U+0130 is two code points. *)
Definition to_lower_full (cp : Z) : list Z :=
  if cp =? 304 then [105; 775]
  else
    match List.find (fun r => let '(first, last, step, _) := r in
                              (first <=? cp) && (cp <=? last)
                              && ((cp - first) mod step =? 0)) lower_ranges with
    | Some (_, _, _, delta) => [cp + delta]
    | None => [cp]
    end.

(** *** [str.lower] *)

(** What follows a capital sigma does not put it in the middle of a word:
    no cased letter comes next, case-ignorable characters apart. *)
Fixpoint ends_word (l : list Z) : bool :=
  match l with
  | [] => true
  | c :: l' => if is_case_ignorable c then ends_word l' else negb (is_cased c)
  end.

(** [do_lower]: [in_word] tells that a cased letter precedes, case-ignorable
    characters apart. The capital sigma U+03A3 becomes the final sigma
    U+03C2 at the end of a word ([handle_capital_sigma]) and U+03C3
    otherwise. *)
Fixpoint lower_points (in_word : bool) (l : list Z) : list Z :=
  match l with
  | [] => []
  | c :: l' =>
      ((if c =? 931 then [if in_word && ends_word l' then 962 else 963]
        else to_lower_full c)
       ++ lower_points (if is_case_ignorable c then in_word else is_cased c) l')%list
  end.

(** [s.lower()] *)
Definition lower (s : string) : string :=
  match decode s with
  | Some l => encode (lower_points false l)
  | None => s
  end.

(** *** Numeric literals *)

(** [Py_ISSPACE]: the white space of the C locale. *)
Definition is_space (c : ascii) : bool :=
  let n := code c in
  (9 <=? n) && (n <=? 13) || (n =? 32).

Definition digit_of (c : ascii) : option Z :=
  let n := code c in
  if (48 <=? n) && (n <=? 57) then Some (n - 48) else None.

Fixpoint lstrip (s : string) : string :=
  match s with
  | String c s' => if is_space c then lstrip s' else s
  | EmptyString => EmptyString
  end.

Fixpoint rstrip (s : string) : string :=
  match s with
  | EmptyString => EmptyString
  | String c s' =>
      match rstrip s' with
      | EmptyString => if is_space c then EmptyString else String c EmptyString
      | r => String c r
      end
  end.

(** The literal between the white space [int] and [float] skip at both
    ends. *)
Definition strip (s : string) : string := rstrip (lstrip s).

(** What [int] and [float] parse in place of a code point
    ([_PyUnicode_TransformDecimalAndSpaceToASCII]): a code point below 127
    stays, white space becomes a blank and a decimal digit its ASCII digit;
    any other code point is not part of a literal. *)
Definition to_ascii_point (cp : Z) : option ascii :=
  if cp <? 127 then Some (byte cp)
  else if is_unicode_space cp then Some " "%char
  else match to_decimal cp with
       | Some d => Some (byte (48 + d))
       | None => None
       end.

Fixpoint to_ascii_points (l : list Z) : option string :=
  match l with
  | [] => Some ""
  | cp :: l' =>
      match to_ascii_point cp, to_ascii_points l' with
      | Some c, Some r => Some (String c r)
      | _, _ => None
      end
  end.

Definition to_ascii (s : string) : option string :=
  match decode s with
  | Some l => to_ascii_points l
  | None => None
  end.

(** [Py_TOLOWER]: the lower case of an ASCII letter. *)
Definition tolower (c : ascii) : ascii :=
  let n := code c in
  if (65 <=? n) && (n <=? 90) then byte (n + 32) else c.

Fixpoint tolower_all (s : string) : string :=
  match s with
  | EmptyString => EmptyString
  | String c s' => String (tolower c) (tolower_all s')
  end.

(** An optional sign: [(negative, rest)]. *)
Definition sign (s : string) : bool * string :=
  match s with
  | String "-" s' => (true, s')
  | String "+" s' => (false, s')
  | _ => (false, s)
  end.

(** The rest of a [digitpart ::= digit (["_"] digit)*] after a digit:
    accumulated value, number of digits read, and what follows. *)
Fixpoint digits_rest (acc : Z) (cnt : Z) (s : string) : Z * Z * string :=
  match s with
  | String c s' =>
      match digit_of c with
      | Some d => digits_rest (10 * acc + d) (cnt + 1) s'
      | None =>
          if Ascii.eqb c "_" then
            match s' with
            | String c' s'' =>
                match digit_of c' with
                | Some d => digits_rest (10 * acc + d) (cnt + 1) s''
                | None => (acc, cnt, s)
                end
            | EmptyString => (acc, cnt, s)
            end
          else (acc, cnt, s)
      end
  | EmptyString => (acc, cnt, s)
  end.

(** A [digitpart] continuing the value [acc]; [None] when [s] does not start
    with a digit. *)
Definition digitpart (acc : Z) (s : string) : option (Z * Z * string) :=
  match s with
  | String c s' =>
      match digit_of c with
      | Some d => Some (digits_rest (10 * acc + d) 1 s')
      | None => None
      end
  | EmptyString => None
  end.

(** [sys.get_int_max_str_digits()], as the interpreter starts with it. *)
Definition int_max_str_digits : Z := 4300.

(** [int(s)] on a string (base 10): [None] is [ValueError]. *)
Definition int (s : string) : option Z :=
  match to_ascii s with
  | Some literal =>
      let '(neg, body) := sign (strip literal) in
      match digitpart 0 body with
      | Some (v, digits, EmptyString) =>
          if digits <=? int_max_str_digits then Some (if neg then - v else v)
          else None
      | _ => None
      end
  | None => None
  end.

(** *** Floats

    A [float] is an IEEE 754 binary64 value: a signed dyadic [m * 2^e] with
    [0 <= m <= 2^53], an infinity, or a NaN. *)
Inductive float :=
| Finite (neg : bool) (m e : Z)
| Inf (neg : bool)
| NaN.

(** Round half to even of the non-negative fraction [p / q], [0 < q]. *)
Definition round_half_even (p q : Z) : Z :=
  let d := p / q in
  let r := p mod q in
  if 2 * r <? q then d
  else if q <? 2 * r then d + 1
  else if Z.even d then d else d + 1.

(** [p / (q * 2^e)] rounded half to even. *)
Definition scaled (p q e : Z) : Z :=
  if 0 <=? e then round_half_even p (q * 2 ^ e)
  else round_half_even (p * 2 ^ (- e)) q.

(** The binary64 nearest to [p / q] (ties to even), for [0 <= p], [0 < q]. *)
Definition binary64 (neg : bool) (p q : Z) : float :=
  if p =? 0 then Finite neg 0 0
  else
    let e0 := Z.log2 p - Z.log2 q - 52 in
    let e1 := if (if 0 <=? e0 then p / (q * 2 ^ e0) else (p * 2 ^ (- e0)) / q) <? 2 ^ 52
              then e0 - 1 else e0 in
    let e := Z.max e1 (-1074) in
    let m := scaled p q e in
    if 971 <? e then Inf neg
    else if (e =? 971) && (m =? 2 ^ 53) then Inf neg
    else Finite neg m e.

(** The decimal [mant * 10^scale] as a binary64. *)
Definition float_of_decimal (neg : bool) (mant scale : Z) : float :=
  if 0 <=? scale then binary64 neg (mant * 10 ^ scale) 1
  else binary64 neg mant (10 ^ (- scale)).

(** [number ::= [digitpart] "." digitpart | digitpart ["."]]: the digits as
    one integer, the count of fraction digits, and the rest. *)
Definition number (s : string) : option (Z * Z * string) :=
  match digitpart 0 s with
  | Some (i, _, String "." s') =>
      match digitpart i s' with
      | Some (v, n, rest) => Some (v, n, rest)
      | None => Some (i, 0, s')
      end
  | Some (i, _, rest) => Some (i, 0, rest)
  | None =>
      match s with
      | String "." s' => digitpart 0 s'
      | _ => None
      end
  end.

(** [exponent ::= ("e" | "E") [sign] digitpart], up to the end of the
    string; the empty string is exponent 0. *)
Definition exponent (s : string) : option Z :=
  match s with
  | EmptyString => Some 0
  | String c s' =>
      if Ascii.eqb (tolower c) "e" then
        let '(neg, body) := sign s' in
        match digitpart 0 body with
        | Some (v, _, EmptyString) => Some (if neg then - v else v)
        | _ => None
        end
      else None
  end.

(** [float(s)] on a string: [None] is [ValueError]. *)
Definition float_of_string (s : string) : option float :=
  match to_ascii s with
  | Some literal =>
      let '(neg, body) := sign (strip literal) in
      let l := tolower_all body in
      if (String.eqb l "inf" || String.eqb l "infinity")%bool then Some (Inf neg)
      else if String.eqb l "nan" then Some NaN
      else
        match number body with
        | Some (mant, frac, rest) =>
            match exponent rest with
            | Some ex => Some (float_of_decimal neg mant (ex - frac))
            | None => None
            end
        | None => None
        end
  | None => None
  end.

(** What [round(x)] does with a float [x]. *)
Inductive rounded :=
| RInt (z : Z)
| ROverflowError
| RValueError.

(** [round(x)] without a digit count: the nearest integer, ties to even;
    an infinity raises [OverflowError], a NaN [ValueError]. *)
Definition round (x : float) : rounded :=
  match x with
  | Finite neg m e =>
      let a := if 0 <=? e then m * 2 ^ e else round_half_even m (2 ^ (- e)) in
      RInt (if neg then - a else a)
  | Inf _ => ROverflowError
  | NaN => RValueError
  end.

(** [a < b] on strings: the order of the first code points that differ, a
    proper prefix before its extensions. The order of the first bytes that
    differ is the same order, as UTF-8 keeps the order of the code points. *)
Fixpoint lt (a b : string) : bool :=
  match a, b with
  | _, EmptyString => false
  | EmptyString, String _ _ => true
  | String x a', String y b' =>
      if (nat_of_ascii x <? nat_of_ascii y)%nat then true
      else if Ascii.eqb x y then lt a' b'
      else false
  end.

End Py.


(** ** Data model (src/models.py) *)

Module NotificationModel.
Record t := mk {
  id : Z;
  user_id : Z;
  query : string;
  min_price : Z;
  max_price : Z;
  search_only_hot : bool;
  search_mydealz : bool;
  search_mindstar : bool;
  search_preisjaeger : bool
}.

(** [NotificationModel()] *)
Definition init : t :=
  mk 0 0 "" 0 0 false true true true.

Definition set_id (v : Z) (n : t) : t :=
  mk v (user_id n) (query n) (min_price n) (max_price n) (search_only_hot n)
     (search_mydealz n) (search_mindstar n) (search_preisjaeger n).
Definition set_user_id (v : Z) (n : t) : t :=
  mk (id n) v (query n) (min_price n) (max_price n) (search_only_hot n)
     (search_mydealz n) (search_mindstar n) (search_preisjaeger n).
Definition set_query (v : string) (n : t) : t :=
  mk (id n) (user_id n) v (min_price n) (max_price n) (search_only_hot n)
     (search_mydealz n) (search_mindstar n) (search_preisjaeger n).
Definition set_min_price (v : Z) (n : t) : t :=
  mk (id n) (user_id n) (query n) v (max_price n) (search_only_hot n)
     (search_mydealz n) (search_mindstar n) (search_preisjaeger n).
Definition set_max_price (v : Z) (n : t) : t :=
  mk (id n) (user_id n) (query n) (min_price n) v (search_only_hot n)
     (search_mydealz n) (search_mindstar n) (search_preisjaeger n).
Definition set_search_only_hot (v : bool) (n : t) : t :=
  mk (id n) (user_id n) (query n) (min_price n) (max_price n) v
     (search_mydealz n) (search_mindstar n) (search_preisjaeger n).

(** [__lt__]: the order in which notifications are listed. *)
Definition lt (self other : t) : bool :=
  Py.lt (Py.lower (query self)) (Py.lower (query other)).
End NotificationModel.

Module UserModel.
Record t := mk {
  id : Z;
  username : string;
  first_name : string;
  last_name : string;
  search_mydealz : bool;
  search_mindstar : bool;
  search_preisjaeger : bool
}.

(** [UserModel()] *)
Definition init : t := mk 0 "" "" "" true true false.
End UserModel.

(** A Telegram chat, as far as [parse_telegram_chat] reads it. *)
Record Chat := {
  chat_id : Z;
  chat_title : option string;
  chat_username : option string;
  chat_first_name : option string;
  chat_last_name : option string
}.

(** [a or b] on optional strings: the first that is neither [None] nor
    empty. *)
Definition str_or (a : option string) (b : string) : string :=
  match a with
  | Some s => if String.eqb s "" then b else s
  | None => b
  end.

(** [UserModel.parse_telegram_chat] *)
Definition parse_telegram_chat (self : UserModel.t) (chat : Chat) : UserModel.t :=
  UserModel.mk (chat_id chat)
    (str_or (chat_title chat) (str_or (chat_username chat) ""))
    (str_or (chat_first_name chat) "")
    (str_or (chat_last_name chat) "")
    (UserModel.search_mydealz self) (UserModel.search_mindstar self)
    (UserModel.search_preisjaeger self).

(** The scalar values the handlers keep in dictionaries and hand to the
    store. *)
Inductive pyval :=
| VInt (z : Z)
| VStr (s : string)
| VBool (b : bool).

(** ** The persistent store

    Modelled from the spec: src/db/tables.py and src/db/columns.py are not
    among the sources. Section 6 gives the store's interface: operations
    keyed by integer id, [get_notification(id)], [update_field(id, field,
    value)], [delete_notification(id)] and [upsert_notification(model) -> id],
    "insert-or-replace keyed by id (id 0 means assign a new id)". A table is a
    finite map from ids to rows. *)

Inductive column := QUERY | MIN_PRICE | MAX_PRICE | ONLY_HOT.

Module SQLiteNotifications.
(** The integer a bound parameter denotes when it is compared with the
    integer key. *)
Definition key (v : pyval) : option Z :=
  match v with
  | VInt z => Some z
  | VStr s => Py.int s
  | VBool b => Some (if b then 1 else 0)
  end.

Definition get_by_id (db : gmap Z NotificationModel.t) (id : Z)
  : option NotificationModel.t := db !! id.

(** An id no row has: one past the largest key (at least 1). *)
Definition new_id (db : gmap Z NotificationModel.t) : Z :=
  1 + map_fold (fun k _ acc => Z.max k acc) 0 db.

Definition upsert_model (db : gmap Z NotificationModel.t) (n : NotificationModel.t)
  : gmap Z NotificationModel.t * Z :=
  if NotificationModel.id n =? 0 then
    let i := new_id db in (<[i := NotificationModel.set_id i n]> db, i)
  else (<[NotificationModel.id n := n]> db, NotificationModel.id n).

Definition set_column (c : column) (v : pyval) (n : NotificationModel.t)
  : NotificationModel.t :=
  match c, v with
  | QUERY, VStr s => NotificationModel.set_query s n
  | MIN_PRICE, VInt z => NotificationModel.set_min_price z n
  | MAX_PRICE, VInt z => NotificationModel.set_max_price z n
  | ONLY_HOT, VBool b => NotificationModel.set_search_only_hot b n
  | _, _ => n
  end.

(** [update(id, column, value)]: the row with that id, if any. *)
Definition update (db : gmap Z NotificationModel.t) (id : Z) (c : column) (v : pyval)
  : gmap Z NotificationModel.t := alter (set_column c v) id db.

Definition delete_by_id (db : gmap Z NotificationModel.t) (id : Z)
  : gmap Z NotificationModel.t := delete id db.

Definition get_by_user_id (db : gmap Z NotificationModel.t) (uid : Z)
  : list NotificationModel.t :=
  filter (fun n => NotificationModel.user_id n = uid) (snd <$> map_to_list db).
End SQLiteNotifications.

Module SQLiteUser.
Definition get_by_id (db : gmap Z UserModel.t) (id : Z) : option UserModel.t :=
  db !! id.

Definition upsert_model (db : gmap Z UserModel.t) (u : UserModel.t)
  : gmap Z UserModel.t := <[UserModel.id u := u]> db.
End SQLiteUser.

(** A table is well formed when every row sits under its own id and no row
    has the id 0 of an unsaved notification. *)
Definition table_wf (db : gmap Z NotificationModel.t) : Prop :=
  db !! 0 = None /\
  forall i n, db !! i = Some n -> NotificationModel.id n = i.

(** The prices of every row are non-negative. *)
Definition prices_nonneg (db : gmap Z NotificationModel.t) : Prop :=
  forall i n, db !! i = Some n ->
    0 <= NotificationModel.min_price n /\ 0 <= NotificationModel.max_price n.

(** ** What a handler writes: replies and store traffic *)

(** The texts of [messages] and the keyboards of [keyboards], by the call
    that builds them. *)
Inductive reply :=
| start_msg
| start_user (u : UserModel.t)
| help_msg
| query_instructions
| price_instructions (kind : string)
| notification_overview (n : NotificationModel.t)
| notification_added (n : NotificationModel.t)
| query_updated (n : NotificationModel.t)
| notification_deleted (n : NotificationModel.t)
| invalid_query
| invalid_price (kind : string)
| notification_not_found.

Inductive keyboard :=
| kb_start (ns : list NotificationModel.t)
| kb_notification_commands (n : NotificationModel.t)
| kb_remove.  (* aiogram's [ReplyKeyboardRemove()] *)

Inductive event :=
| DbGetNotification (id : pyval)
| DbGetNotificationsByUser (uid : Z)
| DbUpsertNotification (n : NotificationModel.t)
| DbUpdateNotification (id : Z) (c : column) (v : pyval)
| DbDeleteNotification (id : Z)
| DbGetUser (id : Z)
| DbUpsertUser (u : UserModel.t)
| EditText (t : reply) (kb : option keyboard)
| EditReplyMarkup (kb : option keyboard)
| Answer (t : reply) (kb : option keyboard)
| RemoveKeyboard (chat : Z) (message_id : Z)
| SendMessage (chat : Z) (t : reply) (kb : option keyboard).

Definition is_write (e : event) : bool :=
  match e with
  | DbUpsertNotification _ | DbUpdateNotification _ _ _
  | DbDeleteNotification _ | DbUpsertUser _ => true
  | _ => false
  end.

(** The number of store writes in a trace. *)
Fixpoint writes (l : list event) : nat :=
  match l with
  | [] => O
  | e :: l' => ((if is_write e then 1 else 0) + writes l')%nat
  end.

(** ** Exceptions and the handler monad *)

Inductive exn :=
| NotificationNotFoundError
| UserNotFoundError (id : Z)
| ValueError
| OverflowError
| AttributeError
| KeyError (k : string)
| Exception (msg : string).

Inductive res (W A : Type) :=
| Ok (a : A) (w : W)
| Raise (e : exn) (w : W).
Arguments Ok {W A} a w.
Arguments Raise {W A} e w.

(** A computation over a world [W]: it returns or raises, and leaves a
    world either way. *)
Definition M (W A : Type) : Type := W -> res W A.

Definition ret {W A} (a : A) : M W A := fun w => Ok a w.
Definition raise {W A} (e : exn) : M W A := fun w => Raise e w.
Definition bind {W A B} (c : M W A) (k : A -> M W B) : M W B :=
  fun w => match c w with
           | Ok a w' => k a w'
           | Raise e w' => Raise e w'
           end.
(** [try: c except e if handles e: h e] *)
Definition try_except {W A} (c : M W A) (handles : exn -> bool) (h : M W A) : M W A :=
  fun w => match c w with
           | Ok a w' => Ok a w'
           | Raise e w' => if handles e then h w' else Raise e w'
           end.
Definition modify {W} (f : W -> W) : M W unit := fun w => Ok tt (f w).

Declare Scope py_scope.
Delimit Scope py_scope with py.
Notation "x <- c ;; k" := (bind c (fun x => k))
  (at level 100, c at next level, right associativity) : py_scope.
Notation "c ;;; k" := (bind c (fun _ => k))
  (at level 100, right associativity) : py_scope.

(** The world a result leaves. *)
Definition world_of {W A} (r : res W A) : W :=
  match r with Ok _ w => w | Raise _ w => w end.

(** [round(float(price.replace(',', '.')))], the expression both
    integrations store as a price. *)
Definition round_float {W} (price : string) : M W Z :=
  match Py.float_of_string (Py.replace "," "." price) with
  | None => raise ValueError
  | Some x =>
      match Py.round x with
      | Py.RInt z => ret z
      | Py.ROverflowError => raise OverflowError
      | Py.RValueError => raise ValueError
      end
  end.

(** ** The callback codec of the python-telegram-bot integration *)

(** Modelled from the spec: src/chat/constants.py is not among the sources.
    [VARIABLE_PATTERN.format(variable, value)] is the "delimiter-prefixed"
    [name=value] pair of section 4.1: the pair delimiter (the ['!'] that
    [get_callback_variable] searches for), the name, the name/value
    delimiter, the value. *)
Definition VARIABLE_PATTERN (variable value : string) : string :=
  "!" ++ variable ++ "=" ++ value.

(** Modelled from the spec: src/chat/keyboards.py, which builds the tokens,
    is not among the sources. Section 4.1: [encode(action, variables)]
    combines "the action name and zero or more name=value pairs"; the
    variables are a Python dictionary, here its items in order. *)
Fixpoint encode_variables (variables : list (string * string)) : string :=
  match variables with
  | [] => ""
  | (k, v) :: rest => VARIABLE_PATTERN k v ++ encode_variables rest
  end.

Definition encode (action : string) (variables : list (string * string)) : string :=
  action ++ encode_variables variables.



(** ** python-telegram-bot integration (src/chat/methods.py) *)

Module Methods.

(** The dialogue a handler leaves the conversation in: [END_CONVERSATION],
    or the state named by one of the [Vars] constants. *)
Inductive conversation :=
| END_CONVERSATION
| ADD_NOTIFICATION
| EDIT_QUERY
| EDIT_MIN_PRICE
| EDIT_MAX_PRICE.

(** What [context.user_data] holds under a key. *)
Inductive udata :=
| UNotification (n : NotificationModel.t)
| UValue (v : pyval).

Record CallbackQuery := {
  data : option string;
  message_id : option Z  (* [callback_query.message.message_id], if it has a message *)
}.

Record Update := {
  effective_user : option Z;
  message : option (option string);  (* [update.message] and its [text] *)
  callback_query : option CallbackQuery
}.

Record world := mk {
  notifications : gmap Z NotificationModel.t;
  user_data : option (gmap string udata);
  trace : list event
}.

Definition emit (e : event) : M world unit :=
  modify (fun w => mk (notifications w) (user_data w) (trace w ++ [e])).

(** [get_user_id] *)
Definition get_user_id (update : Update) : M world Z :=
  match effective_user update with
  | None => raise (Exception "User is missing for update")
  | Some i => ret i
  end.

(** [get_text]: [str(update.message.text)], the empty string without a
    message. *)
Definition get_text (update : Update) : string :=
  match message update with
  | Some (Some t) => t
  | Some None => "None"
  | None => ""
  end.

(** [send_message]: the old keyboard is removed when the update has a
    callback message ([AttributeError] is passed over), then the text is
    sent. *)
Definition send_message (update : Update) (t : reply) (reply_markup : option keyboard)
  : M world unit :=
  (uid <- get_user_id update ;;
   match callback_query update with
   | Some cq =>
       match message_id cq with
       | Some mid => emit (RemoveKeyboard uid mid)
       | None => ret tt
       end
   | None => ret tt
   end ;;;
   chat <- get_user_id update ;;
   emit (SendMessage chat t reply_markup))%py.

(** [overwrite_message] *)
Definition overwrite_message (update : Update) (t : reply) (reply_markup : option keyboard)
  : M world unit :=
  match callback_query update with
  | Some _ =>
      (emit (EditText t None) ;;;
       match reply_markup with
       | Some kb => emit (EditReplyMarkup (Some kb))
       | None => ret tt
       end)%py
  | None => send_message update t reply_markup
  end.

(** [get_callback_variable] *)
Definition get_callback_variable (update : Update) (variable : string) : string :=
  let variable_pattern := VARIABLE_PATTERN variable "" in
  match callback_query update with
  | None => ""
  | Some cq =>
      match data cq with
      | None => ""
      | Some cb_data =>
          if String.eqb cb_data "" then ""
          else
            match Py.find variable_pattern cb_data with
            | None => ""
            | Some start =>
                let start := (start + String.length variable_pattern)%nat in
                let stop := match Py.find_from "!" cb_data start with
                            | Some i => i
                            | None => String.length cb_data
                            end in
                Py.slice cb_data start stop
            end
      end
  end.

(** [get_user_data]: an empty or missing dictionary gives [None]. *)
Definition get_user_data (key : string) : M world (option udata) :=
  fun w => Ok (match user_data w with
               | Some d => d !! key
               | None => None
               end) w.

(** [set_user_data] *)
Definition set_user_data (key : string) (value : udata) : M world unit :=
  fun w => match user_data w with
           | Some d => Ok tt (mk (notifications w) (Some (<[key := value]> d)) (trace w))
           | None => Raise (Exception "user_data is not a dictionary") w
           end.

(** [clear_user_data] *)
Definition clear_user_data : M world unit :=
  modify (fun w => mk (notifications w)
                      (match user_data w with Some _ => Some ∅ | None => None end)
                      (trace w)).

(** [SQLiteNotifications().get_by_id(id)] *)
Definition db_get (id : Z) : M world (option NotificationModel.t) :=
  fun w => Ok (SQLiteNotifications.get_by_id (notifications w) id)
              (mk (notifications w) (user_data w) (trace w ++ [DbGetNotification (VInt id)])).

(** [SQLiteNotifications().update(id, column, value)] *)
Definition db_update (id : Z) (c : column) (v : pyval) : M world unit :=
  modify (fun w => mk (SQLiteNotifications.update (notifications w) id c v)
                      (user_data w)
                      (trace w ++ [DbUpdateNotification id c v])).

(** [SQLiteNotifications().upsert_model(model)] *)
Definition db_upsert (n : NotificationModel.t) : M world Z :=
  fun w => let '(db, i) := SQLiteNotifications.upsert_model (notifications w) n in
           Ok i (mk db (user_data w) (trace w ++ [DbUpsertNotification n])).

(** [help] *)
Definition help (update : Update) : M world conversation :=
  (send_message update help_msg None ;;;
   ret END_CONVERSATION)%py.

(** [add_notification_trigger] *)
Definition add_notification_trigger (update : Update) : M world conversation :=
  (overwrite_message update query_instructions None ;;;
   ret ADD_NOTIFICATION)%py.

(** [add_notification_failed] *)
Definition add_notification_failed (update : Update) : M world conversation :=
  (send_message update invalid_query None ;;;
   ret ADD_NOTIFICATION)%py.

(** [update_query_failed] *)
Definition update_query_failed (update : Update) : M world conversation :=
  (send_message update invalid_query None ;;;
   ret EDIT_QUERY)%py.

Section Vars.
(** The keys [Vars.NOTIFICATION] (of [user_data]) and
    [Vars.NOTIFICATION_ID] (of the callback token), constants of
    src/chat/constants.py. *)
Variables NOTIFICATION NOTIFICATION_ID : string.

(** [get_notification] *)
Definition get_notification (update : Update) : M world NotificationModel.t :=
  (let notification_id := get_callback_variable update NOTIFICATION_ID in
   notification <-
     (if String.eqb notification_id "" then ret None
      else match Py.int notification_id with
           | Some i => db_get i
           | None => raise ValueError
           end) ;;
   match notification with
   | Some n =>
       set_user_data NOTIFICATION (UNotification n) ;;;
       ret n
   | None =>
       cached <- get_user_data NOTIFICATION ;;
       match cached with
       | Some (UNotification n) => ret n
       | _ => raise NotificationNotFoundError
       end
   end)%py.

(** An attribute assignment on the object [get_notification] returned.
    That object is the one [user_data] holds under [Vars.NOTIFICATION]
    (it was stored there, or read from there), so the assignment shows in
    the session as well. *)
Definition assign (n : NotificationModel.t) : M world unit :=
  modify (fun w => mk (notifications w)
                      (match user_data w with
                       | Some d => Some (<[NOTIFICATION := UNotification n]> d)
                       | None => None
                       end)
                      (trace w)).

(** [show_notification] *)
Definition show_notification (update : Update) (overwrite : bool) : M world conversation :=
  (notification <- get_notification update ;;
   (if overwrite then
      overwrite_message update (notification_overview notification)
        (Some (kb_notification_commands notification))
    else
      send_message update (notification_overview notification)
        (Some (kb_notification_commands notification))) ;;;
   ret END_CONVERSATION)%py.

(** [update_query_trigger] *)
Definition update_query_trigger (update : Update) : M world conversation :=
  (send_message update query_instructions None ;;;
   ret EDIT_QUERY)%py.

(** [update_min_price_trigger] *)
Definition update_min_price_trigger (update : Update) : M world conversation :=
  (send_message update (price_instructions "Min") None ;;;
   ret EDIT_MIN_PRICE)%py.

(** [update_min_price] *)
Definition update_min_price (update : Update) : M world conversation :=
  (let price := get_text update in
   let price := if String.eqb price "/remove" then "0" else price in
   notification <- get_notification update ;;
   v <- round_float price ;;
   let notification := NotificationModel.set_min_price v notification in
   assign notification ;;;
   db_update (NotificationModel.id notification) MIN_PRICE
     (VInt (NotificationModel.min_price notification)) ;;;
   send_message update (query_updated notification)
     (Some (kb_notification_commands notification)) ;;;
   ret END_CONVERSATION)%py.

(** [update_min_price_failed] *)
Definition update_min_price_failed (update : Update) : M world conversation :=
  (send_message update (invalid_price "Min") None ;;;
   ret EDIT_MIN_PRICE)%py.

(** [update_max_price_trigger] *)
Definition update_max_price_trigger (update : Update) : M world conversation :=
  (send_message update (price_instructions "Max") None ;;;
   ret EDIT_MAX_PRICE)%py.

(** [update_max_price] *)
Definition update_max_price (update : Update) : M world conversation :=
  (let price := get_text update in
   let price := if String.eqb price "/remove" then "0" else price in
   notification <- get_notification update ;;
   v <- round_float price ;;
   let notification := NotificationModel.set_max_price v notification in
   assign notification ;;;
   db_update (NotificationModel.id notification) MAX_PRICE
     (VInt (NotificationModel.max_price notification)) ;;;
   send_message update (query_updated notification)
     (Some (kb_notification_commands notification)) ;;;
   ret END_CONVERSATION)%py.

(** [update_max_price_failed] *)
Definition update_max_price_failed (update : Update) : M world conversation :=
  (send_message update (invalid_price "Max") None ;;;
   ret EDIT_MAX_PRICE)%py.

(** [toggle_only_hot]: it returns [None], which leaves the conversation
    where it is. *)
Definition toggle_only_hot (update : Update) : M world unit :=
  (notification <- get_notification update ;;
   let notification :=
     NotificationModel.set_search_only_hot
       (negb (NotificationModel.search_only_hot notification)) notification in
   assign notification ;;;
   db_update (NotificationModel.id notification) ONLY_HOT
     (VBool (NotificationModel.search_only_hot notification)) ;;;
   show_notification update true ;;;
   ret tt)%py.

(** [Vars.ADD_NOTIFICATION] as the name of a callback variable. *)
Variable ADD_NOTIFICATION_VARIABLE : string.

(** [add_notification]: the query is the text of the message, or, without
    one, the callback variable. *)
Definition add_notification (update : Update) : M world conversation :=
  (let notification := NotificationModel.init in
   uid <- get_user_id update ;;
   let notification := NotificationModel.set_user_id uid notification in
   let query := if String.eqb (get_text update) ""
                then get_callback_variable update ADD_NOTIFICATION_VARIABLE
                else get_text update in
   let notification := NotificationModel.set_query query notification in
   i <- db_upsert notification ;;
   let notification := NotificationModel.set_id i notification in
   set_user_data NOTIFICATION (UNotification notification) ;;;
   send_message update (notification_added notification)
     (Some (kb_notification_commands notification)) ;;;
   ret END_CONVERSATION)%py.

(** [update_query] *)
Definition update_query (update : Update) : M world conversation :=
  (notification <- get_notification update ;;
   let notification := NotificationModel.set_query (get_text update) notification in
   assign notification ;;;
   db_update (NotificationModel.id notification) QUERY
     (VStr (NotificationModel.query notification)) ;;;
   send_message update (query_updated notification)
     (Some (kb_notification_commands notification)) ;;;
   ret END_CONVERSATION)%py.
End Vars.

End Methods.

(** ** aiogram integration (src/telegram/handlers.py) *)

Module Handlers.

(** The dialogue states of [States] (src/telegram/constants.py); no state
    is [None]. *)
Inductive States :=
| ADD_NOTIFICATION
| EDIT_QUERY
| EDIT_MIN_PRICE
| EDIT_MAX_PRICE.

(** Modelled from the spec: [Commands.REMOVE] of src/telegram/constants.py
    is not among the sources; section 4.3 names the literal text [/remove]. *)
Definition REMOVE : string := "remove".

Record Message := {
  chat : Chat;
  text : option string;
  can_edit : bool  (* [edit_text] does not raise [MessageCantBeEdited] *)
}.

Record CallbackQuery := {
  message : Message
}.

(** The handle on the dialogue of the user whose event is handled; the state
    and the data it gives access to live in the world. *)
Inductive FSMContext := CurrentContext.

Record world := mk {
  notifications : gmap Z NotificationModel.t;
  users : gmap Z UserModel.t;
  state : option States;
  data : gmap string pyval;
  trace : list event
}.

Definition emit (e : event) : M world unit :=
  modify (fun w => mk (notifications w) (users w) (state w) (data w) (trace w ++ [e])).

(** [state.get_state()] *)
Definition get_state : M world (option States) := fun w => Ok (state w) w.

(** [States.X.set()] *)
Definition set_state (s : States) : M world unit :=
  modify (fun w => mk (notifications w) (users w) (Some s) (data w) (trace w)).

(** [state.finish()]: the state and the data are reset. *)
Definition finish : M world unit :=
  modify (fun w => mk (notifications w) (users w) None ∅ (trace w)).

(** [SQLiteNotifications().get_by_id(id)] *)
Definition db_get (id : pyval) : M world (option NotificationModel.t) :=
  fun w => Ok (match SQLiteNotifications.key id with
               | Some i => SQLiteNotifications.get_by_id (notifications w) i
               | None => None
               end)
              (mk (notifications w) (users w) (state w) (data w)
                  (trace w ++ [DbGetNotification id])).

(** [SQLiteNotifications().upsert_model(model)] *)
Definition db_upsert (n : NotificationModel.t) : M world Z :=
  fun w => let '(db, i) := SQLiteNotifications.upsert_model (notifications w) n in
           Ok i (mk db (users w) (state w) (data w) (trace w ++ [DbUpsertNotification n])).

(** [SQLiteNotifications().get_by_user_id(id)] *)
Definition db_get_by_user_id (uid : Z) : M world (list NotificationModel.t) :=
  fun w => Ok (SQLiteNotifications.get_by_user_id (notifications w) uid)
              (mk (notifications w) (users w) (state w) (data w)
                  (trace w ++ [DbGetNotificationsByUser uid])).

(** [SQLiteUser().get_by_id(id)] *)
Definition user_get (id : Z) : M world (option UserModel.t) :=
  fun w => Ok (SQLiteUser.get_by_id (users w) id)
              (mk (notifications w) (users w) (state w) (data w) (trace w ++ [DbGetUser id])).

(** [SQLiteUser().upsert_model(user)] *)
Definition user_upsert (u : UserModel.t) : M world unit :=
  modify (fun w => mk (notifications w) (SQLiteUser.upsert_model (users w) u)
                      (state w) (data w) (trace w ++ [DbUpsertUser u])).

(** [__overwrite_or_answer] *)
Definition overwrite_or_answer (m : Message) (t : reply) (reply_markup : option keyboard)
  : M world unit :=
  if can_edit m then emit (EditText t reply_markup)
  else emit (Answer t (Some (default kb_remove reply_markup))).

(** [__finish_state] *)
Definition finish_state (st : option FSMContext) : M world unit :=
  match st with
  | None => ret tt
  | Some _ =>
      (s <- get_state ;;
       match s with
       | Some _ => finish
       | None => ret tt
       end)%py
  end.

(** [__get_user_id]: both a message and a callback query lead to the chat
    of the message. *)
Definition get_user_id (source : Message + CallbackQuery) : Z :=
  match source with
  | inl m => chat_id (chat m)
  | inr q => chat_id (chat (message q))
  end.

(** [__get_user] *)
Definition get_user (source : Message + CallbackQuery) : M world UserModel.t :=
  (let user_id := get_user_id source in
   user <- user_get user_id ;;
   match user with
   | None => raise (UserNotFoundError user_id)
   | Some u => ret u
   end)%py.

Definition is_user_not_found (e : exn) : bool :=
  match e with UserNotFoundError _ => true | _ => false end.

Definition is_notification_not_found (e : exn) : bool :=
  match e with NotificationNotFoundError => true | _ => false end.

(** [start] *)
Definition start (m : Message) : M world unit :=
  (user <- try_except (get_user (inl m)) is_user_not_found
             (let user := parse_telegram_chat UserModel.init (chat m) in
              user_upsert user ;;;
              ret user) ;;
   notifications <- db_get_by_user_id (UserModel.id user) ;;
   overwrite_or_answer m (start_user user) (Some (kb_start notifications)))%py.

(** [help] *)
Definition help (m : Message) : M world unit :=
  overwrite_or_answer m help_msg None.

(** The message of a [Union[Message, CallbackQuery]]. *)
Definition message_of (telegram_object : Message + CallbackQuery) : Message :=
  match telegram_object with
  | inl m => m
  | inr q => message q
  end.

(** [start_over] *)
Definition start_over (telegram_object : Message + CallbackQuery) (st : FSMContext)
  : M world unit :=
  (finish_state (Some st) ;;;
   start (message_of telegram_object))%py.

(** [__store_notification_id] *)
Definition store_notification_id (st : FSMContext) (callback_data : gmap string pyval)
  : M world unit :=
  match callback_data !! "notification_id" with
  | None => raise (KeyError "notification_id")
  | Some v =>
      modify (fun w => mk (notifications w) (users w) (state w)
                          (<["notification_id" := v]> (data w)) (trace w))
  end.

(** [__get_notification]: the source is the dialogue context or the
    dictionary of a callback. *)
Definition get_notification (source : gmap string pyval + FSMContext)
  : M world NotificationModel.t :=
  (notification_id <-
     match source with
     | inr _ => fun w => Ok (default (VInt 0) (data w !! "notification_id")) w
     | inl callback_data => ret (default (VInt 0) (callback_data !! "notification_id"))
     end ;;
   notification <- db_get notification_id ;;
   match notification with
   | None => raise NotificationNotFoundError
   | Some n => ret n
   end)%py.

(** [show_notification] *)
Definition show_notification (q : CallbackQuery) (callback_data : gmap string pyval)
  : M world unit :=
  (notification <- get_notification (inl callback_data) ;;
   overwrite_or_answer (message q) (notification_overview notification)
     (Some (kb_notification_commands notification)))%py.

(** [edit_query] *)
Definition edit_query (q : CallbackQuery) (callback_data : gmap string pyval)
    (st : FSMContext) : M world unit :=
  (store_notification_id st callback_data ;;;
   set_state EDIT_QUERY ;;;
   overwrite_or_answer (message q) query_instructions None)%py.

(** [edit_min_price] *)
Definition edit_min_price (q : CallbackQuery) (callback_data : gmap string pyval)
    (st : FSMContext) : M world unit :=
  (store_notification_id st callback_data ;;;
   set_state EDIT_MIN_PRICE ;;;
   overwrite_or_answer (message q) (price_instructions "Min") None)%py.

(** [edit_max_price] *)
Definition edit_max_price (q : CallbackQuery) (callback_data : gmap string pyval)
    (st : FSMContext) : M world unit :=
  (store_notification_id st callback_data ;;;
   set_state EDIT_MAX_PRICE ;;;
   overwrite_or_answer (message q) (price_instructions "Max") None)%py.

(** [round(float(price.replace(',', '.')))] on [message.text], which may be
    [None]. *)
Definition price_of (price : option string) : M world Z :=
  match price with
  | None => raise AttributeError
  | Some p => round_float p
  end.

(** [price = message.text; if price == f'/{Commands.REMOVE}': price = '0'] *)
Definition price_text (m : Message) : option string :=
  match text m with
  | Some p => if String.eqb p ("/" ++ REMOVE) then Some "0" else Some p
  | None => None
  end.

(** [process_edit_min_price] *)
Definition process_edit_min_price (m : Message) (st : FSMContext) : M world unit :=
  (let price := price_text m in
   notification <- get_notification (inr st) ;;
   v <- price_of price ;;
   let notification := NotificationModel.set_min_price v notification in
   db_upsert notification ;;;
   overwrite_or_answer m (query_updated notification)
     (Some (kb_notification_commands notification)) ;;;
   finish)%py.

(** [process_edit_max_price] *)
Definition process_edit_max_price (m : Message) (st : FSMContext) : M world unit :=
  (let price := price_text m in
   notification <- get_notification (inr st) ;;
   v <- price_of price ;;
   let notification := NotificationModel.set_max_price v notification in
   db_upsert notification ;;;
   overwrite_or_answer m (query_updated notification)
     (Some (kb_notification_commands notification)) ;;;
   finish)%py.

(** [toggle_only_hot] *)
Definition toggle_only_hot (q : CallbackQuery) (callback_data : gmap string pyval)
  : M world unit :=
  (notification <- get_notification (inl callback_data) ;;
   let notification :=
     NotificationModel.set_search_only_hot
       (negb (NotificationModel.search_only_hot notification)) notification in
   db_upsert notification ;;;
   show_notification q callback_data)%py.

(** [cancel]: the [except] clause catches [NotificationNotFoundError] of the
    lookup only; the [else] branch runs when the lookup returned. *)
Definition cancel (m : Message) (st : FSMContext) : M world unit :=
  (s <- get_state ;;
   match s with
   | None => ret tt
   | Some _ =>
       found <- try_except (n <- get_notification (inr st) ;; ret (Some n))
                  is_notification_not_found (ret None) ;;
       match found with
       | None => start_over (inl m) st
       | Some notification =>
           overwrite_or_answer m (notification_overview notification)
             (Some (kb_notification_commands notification))
       end ;;;
       finish_state (Some st)
   end)%py.

(** [name == States.X] for the name [state.get_state()] returns: the name
    is a [str] (or [None]) and [States.X] is a [State] object of aiogram,
    which defines no [__eq__], so the two are never equal. *)
Definition state_name_eq (name : option States) (s : States) : bool := false.

(** [invalid_price] *)
Definition invalid_price (m : Message) (st : FSMContext) : M world unit :=
  (s <- get_state ;;
   let price_type := if state_name_eq s EDIT_MIN_PRICE then "Min" else "Max" in
   overwrite_or_answer m (invalid_price price_type) None)%py.


(** [SQLiteNotifications().delete_by_id(id)] *)
Definition db_delete (id : Z) : M world unit :=
  modify (fun w => mk (SQLiteNotifications.delete_by_id (notifications w) id) (users w)
                      (state w) (data w) (trace w ++ [DbDeleteNotification id])).

(** [add_notification] *)
Definition add_notification (q : CallbackQuery) : M world unit :=
  (set_state ADD_NOTIFICATION ;;;
   overwrite_or_answer (message q) query_instructions None)%py.

(** [__save_notification] *)
Definition save_notification (query : string) (chat : Z) : M world NotificationModel.t :=
  (let notification := NotificationModel.init in
   let notification := NotificationModel.set_user_id chat notification in
   let notification := NotificationModel.set_query query notification in
   i <- db_upsert notification ;;
   ret (NotificationModel.set_id i notification))%py.

(** The text of a message the registration hands to a text handler. A
    query is a string ([query: str]); a message without text has no query
    to store, and the model stops there. *)
Definition query_text (m : Message) : M world string :=
  match text m with
  | Some t => ret t
  | None => raise (Exception "message without text")
  end.

(** [process_add_notification] *)
Definition process_add_notification (m : Message) (st : FSMContext) : M world unit :=
  (query <- query_text m ;;
   notification <- save_notification query (chat_id (chat m)) ;;
   finish ;;;
   overwrite_or_answer m (notification_added notification)
     (Some (kb_notification_commands notification)))%py.

(** [process_edit_query]: it does not finish the dialogue. *)
Definition process_edit_query (m : Message) (st : FSMContext) : M world unit :=
  (notification <- get_notification (inr st) ;;
   query <- query_text m ;;
   let notification := NotificationModel.set_query query notification in
   db_upsert notification ;;;
   overwrite_or_answer m (query_updated notification)
     (Some (kb_notification_commands notification)))%py.

(** [delete_notification] *)
Definition delete_notification (q : CallbackQuery) (callback_data : gmap string pyval)
  : M world unit :=
  (notification <- get_notification (inl callback_data) ;;
   db_delete (NotificationModel.id notification) ;;;
   overwrite_or_answer (message q) (notification_deleted notification) None)%py.

(** [invalid_query] *)
Definition invalid_query (m : Message) : M world unit :=
  overwrite_or_answer m invalid_query None.

End Handlers.

(** ** The dispatch of a price input

    Modelled from the spec: the registration of the handlers (which filter
    routes a text to [update_min_price] or to [update_min_price_failed], to
    [process_edit_max_price] or to [invalid_price]) is not among the
    sources. Section 4.3: a price input "must parse as a decimal number after
    normalizing a comma decimal separator to a period, and must round to a
    non-negative integer; the literal text /remove is accepted". *)
Definition price_input_valid (input : string) : bool :=
  String.eqb input "/remove" ||
  match Py.float_of_string (Py.replace "," "." input) with
  | Some x =>
      match Py.round x with
      | Py.RInt z => 0 <=? z
      | _ => false
      end
  | None => false
  end.

(** Modelled from the spec: a text turn of the python-telegram-bot
    integration while a price dialogue is active (section 4.3: valid input
    performs the mutation, invalid input re-prompts and stays). *)
Definition Methods_price_turn (NOTIFICATION NOTIFICATION_ID : string)
    (current : Methods.conversation) (update : Methods.Update)
  : M Methods.world Methods.conversation :=
  match current with
  | Methods.EDIT_MIN_PRICE =>
      if price_input_valid (Methods.get_text update)
      then Methods.update_min_price NOTIFICATION NOTIFICATION_ID update
      else Methods.update_min_price_failed update
  | Methods.EDIT_MAX_PRICE =>
      if price_input_valid (Methods.get_text update)
      then Methods.update_max_price NOTIFICATION NOTIFICATION_ID update
      else Methods.update_max_price_failed update
  | other => ret other
  end.

(** Modelled from the spec: a text turn of the aiogram integration while a
    price dialogue is active. *)
Definition Handlers_price_turn (m : Handlers.Message) (st : Handlers.FSMContext)
  : M Handlers.world unit :=
  (s <- Handlers.get_state ;;
   match s, Handlers.text m with
   | Some Handlers.EDIT_MIN_PRICE, Some input =>
       if price_input_valid input then Handlers.process_edit_min_price m st
       else Handlers.invalid_price m st
   | Some Handlers.EDIT_MAX_PRICE, Some input =>
       if price_input_valid input then Handlers.process_edit_max_price m st
       else Handlers.invalid_price m st
   | _, _ => ret tt
   end)%py.

(** ** Reading results *)

(** What a computation returned or raised. *)
Definition outcome {W A} (r : res W A) : A + exn :=
  match r with
  | Ok a _ => inl a
  | Raise e _ => inr e
  end.

(** The record a dictionary entry names in the aiogram integration: the
    lookup of the entry's id, 0 when there is no entry. *)
Definition Handlers_lookup (w : Handlers.world) (entry : option pyval)
  : option NotificationModel.t :=
  match SQLiteNotifications.key (default (VInt 0) entry) with
  | Some i => Handlers.notifications w !! i
  | None => None
  end.

(** The record the session of the python-telegram-bot integration holds. *)
Definition Methods_cached (NOTIFICATION : string) (w : Methods.world)
  : option NotificationModel.t :=
  match Methods.user_data w with
  | Some d =>
      match d !! NOTIFICATION with
      | Some (Methods.UNotification n) => Some n
      | _ => None
      end
  | None => None
  end.

(** An update that is a callback with the given token. *)
Definition callback_update (user : Z) (token : string) : Methods.Update :=
  {| Methods.effective_user := Some user;
     Methods.message := None;
     Methods.callback_query :=
       Some {| Methods.data := Some token; Methods.message_id := Some 1 |} |}.

(** An update that is a text message. *)
Definition text_update (user : Z) (input : string) : Methods.Update :=
  {| Methods.effective_user := Some user;
     Methods.message := Some (Some input);
     Methods.callback_query := None |}.

(** ** Sample data *)

Definition sample_notification : NotificationModel.t :=
  NotificationModel.mk 5 7 "tv" 0 0 false true true true.

Definition sample_chat : Chat :=
  {| chat_id := 7; chat_title := None; chat_username := Some "bob";
     chat_first_name := None; chat_last_name := None |}.

(** A store with the sample notification and an empty session. *)
Definition sample_methods_world : Methods.world :=
  Methods.mk {[ 5 := sample_notification ]} (Some ∅) [].

(** The store has lost the notification the session still caches. *)
Definition stale_methods_world : Methods.world :=
  Methods.mk ∅ (Some {[ "notification" := Methods.UNotification sample_notification ]}) [].

(** A store with the sample notification, no dialogue. *)
Definition sample_handlers_world : Handlers.world :=
  Handlers.mk {[ 5 := sample_notification ]} ∅ None ∅ [].

(** A minimum-price dialogue pinned to the sample notification. *)
Definition min_price_dialogue : Handlers.world :=
  Handlers.mk {[ 5 := sample_notification ]} ∅ (Some Handlers.EDIT_MIN_PRICE)
    {[ "notification_id" := VStr "5" ]} [].

(** A dialogue whose pinned notification is gone from the store. *)
Definition orphaned_dialogue : Handlers.world :=
  Handlers.mk ∅ ∅ (Some Handlers.EDIT_MIN_PRICE)
    {[ "notification_id" := VStr "5" ]} [].

Definition sample_message (input : string) : Handlers.Message :=
  {| Handlers.chat := sample_chat; Handlers.text := Some input; Handlers.can_edit := false |}.

Definition sample_query : Handlers.CallbackQuery :=
  {| Handlers.message :=
       {| Handlers.chat := sample_chat; Handlers.text := None; Handlers.can_edit := true |} |}.

Definition sample_callback_data : gmap string pyval :=
  {[ "notification_id" := VStr "5" ]}.

(** ** Notions the properties are stated with *)

(** What follows a value in a token: nothing, or the next pair. *)
Definition pair_boundary (post : string) : Prop :=
  post = "" \/ exists r, post = String "!" r.


(** The dialogue [hw'] is pinned to the notification the entry [v] names:
    it awaits input in state [s], its data hold [v] under
    ["notification_id"], the store is the one of [hw], and a turn that
    resolves from the dialogue finds the record [v] names in [hw]. *)
Definition pinned_after (hw hw' : Handlers.world) (s : Handlers.States) (v : pyval) : Prop :=
  Handlers.state hw' = Some s /\
  Handlers.data hw' !! "notification_id" = Some v /\
  Handlers.notifications hw' = Handlers.notifications hw /\
  forall M n,
    SQLiteNotifications.key v = Some M ->
    Handlers.notifications hw !! M = Some n ->
    outcome (Handlers.get_notification (inr Handlers.CurrentContext) hw') = inl n.

(** The world after the one store read of [Handlers.__get_notification] on
    the dialogue context. *)
Definition after_lookup (hw : Handlers.world) : Handlers.world :=
  Handlers.mk (Handlers.notifications hw) (Handlers.users hw) (Handlers.state hw)
    (Handlers.data hw)
    (Handlers.trace hw
     ++ [DbGetNotification (default (VInt 0) (Handlers.data hw !! "notification_id"))]).

(** The notification with its only-hot flag inverted. *)
Definition flipped (n : NotificationModel.t) : NotificationModel.t :=
  NotificationModel.set_search_only_hot (negb (NotificationModel.search_only_hot n)) n.

(** A handler run from a world in [P] returns a value and a world in [Q],
    or raises and leaves a world in [E]. *)
Definition triple {W A} (P : W -> Prop) (c : M W A) (Q : A -> W -> Prop) (E : W -> Prop)
  : Prop :=
  forall w, P w ->
    match c w with
    | Ok a w' => Q a w'
    | Raise _ w' => E w'
    end.

(** The price invariant on the worlds of the two integrations. *)
Definition Methods_prices_ok (w : Methods.world) : Prop :=
  prices_nonneg (Methods.notifications w).

Definition Handlers_prices_ok (w : Handlers.world) : Prop :=
  prices_nonneg (Handlers.notifications w).

(** The reply [__overwrite_or_answer] sends. *)
Definition reply_event (m : Handlers.Message) (t : reply) (kb : option keyboard) : event :=
  if Handlers.can_edit m then EditText t kb else Answer t (Some (default kb_remove kb)).

(** ** Further notions *)

(** The record [add_notification] and [__save_notification] build for the
    user [uid] and the query [query], once the store has given it the id
    [i]. *)
Definition added (i uid : Z) (query : string) : NotificationModel.t :=
  NotificationModel.set_id i
    (NotificationModel.set_query query
       (NotificationModel.set_user_id uid NotificationModel.init)).

(** The world after the one store read of [Handlers.__get_notification] on
    the dictionary of a callback. *)
Definition after_callback_lookup (callback_data : gmap string pyval) (hw : Handlers.world)
  : Handlers.world :=
  Handlers.mk (Handlers.notifications hw) (Handlers.users hw) (Handlers.state hw)
    (Handlers.data hw)
    (Handlers.trace hw
     ++ [DbGetNotification (default (VInt 0) (callback_data !! "notification_id"))]).


(** * Properties *)

(** ** Strings *)

Lemma app_cons c (a b : string) : String c a ++ b = String c (a ++ b).
Proof. reflexivity. Qed.

Lemma app_nil_l_s (b : string) : "" ++ b = b.
Proof. reflexivity. Qed.

Lemma startswith_app p t : Py.startswith p (p ++ t) = true.
Proof.
  induction p as [|a p IH]; [reflexivity|].
  rewrite app_cons. simpl. rewrite Ascii.eqb_refl. exact IH.
Qed.

Lemma str_length_app (a b : string) :
  String.length (a ++ b) = (String.length a + String.length b)%nat.
Proof.
  induction a as [|c a IH]; [reflexivity|].
  rewrite app_cons. simpl. now rewrite IH.
Qed.

Lemma app_empty_r (a : string) : a ++ "" = a.
Proof.
  induction a as [|c a IH]; [reflexivity|].
  rewrite app_cons. now rewrite IH.
Qed.

Lemma app_assoc_s (a b c : string) : (a ++ b) ++ c = a ++ b ++ c.
Proof.
  induction a as [|x a IH]; [reflexivity|].
  rewrite !app_cons. now rewrite IH.
Qed.

Lemma drop_app (a b : string) : Py.drop (String.length a) (a ++ b) = b.
Proof.
  induction a as [|c a IH]; [reflexivity|].
  rewrite app_cons. simpl. exact IH.
Qed.

Lemma take_app (a b : string) : Py.take (String.length a) (a ++ b) = a.
Proof.
  induction a as [|c a IH]; [reflexivity|].
  rewrite app_cons. simpl. now rewrite IH.
Qed.


(** A pattern that starts with a character the prefix [a] does not hold is
    not found inside [a]. *)
Lemma find_skip c p (a t : string) :
  Py.contains c a = false ->
  Py.find (String c p) (a ++ t) = Nat.add (String.length a) <$> Py.find (String c p) t.
Proof.
  induction a as [|x a IH]; intros Hc.
  - rewrite app_nil_l_s. now destruct (Py.find (String c p) t).
  - cbn [Py.contains] in Hc. apply orb_false_iff in Hc as [Hx Ha].
    rewrite app_cons. cbn [Py.find Py.startswith]. rewrite Ascii.eqb_sym, Hx. rewrite (IH Ha).
    now destruct (Py.find (String c p) t).
Qed.


(** ** The callback codec *)

Lemma pattern_cons k v : VARIABLE_PATTERN k v = String "!" (k ++ String "=" v).
Proof. reflexivity. Qed.





(** The value [get_callback_variable] cuts out of a token in which the
    pattern is first met right before [v]. *)
Lemma get_callback_variable_located update cq k pre v post :
  Methods.callback_query update = Some cq ->
  Methods.data cq = Some (pre ++ VARIABLE_PATTERN k "" ++ v ++ post) ->
  Py.find (VARIABLE_PATTERN k "") (pre ++ VARIABLE_PATTERN k "" ++ v ++ post)
    = Some (String.length pre) ->
  pair_boundary post -> Py.contains "!" v = false ->
  Methods.get_callback_variable update k = v.
Proof.
  intros Hcq Hdata Hfind Hpost Hv.
  unfold Methods.get_callback_variable. rewrite Hcq, Hdata.
  set (P := VARIABLE_PATTERN k "") in *.
  set (T := pre ++ P ++ v ++ post) in *.
  assert (HT : T = (pre ++ P) ++ v ++ post) by (unfold T; now rewrite app_assoc_s).
  assert (Hlen : (String.length pre + String.length P)%nat = String.length (pre ++ P))
    by now rewrite str_length_app.
  assert (Hne : String.eqb T "" = false).
  { apply String.eqb_neq. intros H0. apply (f_equal String.length) in H0.
    rewrite HT, !str_length_app in H0. unfold P in H0. rewrite pattern_cons in H0.
    cbn [String.length] in H0. lia. }
  rewrite Hne, Hfind. rewrite Hlen.
  unfold Py.find_from, Py.slice.
  assert (Hlt : (String.length T <? String.length (pre ++ P))%nat = false).
  { apply Nat.ltb_ge. rewrite HT, (str_length_app (pre ++ P)). lia. }
  rewrite Hlt.
  assert (Hdrop : Py.drop (String.length (pre ++ P)) T = v ++ post)
    by (rewrite HT; apply drop_app).
  rewrite Hdrop.
  change "!" with (String "!" "") at 1.
  rewrite (find_skip "!" "" v post Hv).
  destruct Hpost as [->|[r ->]].
  - cbn. rewrite app_empty_r.
    replace (String.length T - String.length (pre ++ P))%nat with (String.length v).
    + pose proof (take_app v "") as Ht. now rewrite app_empty_r in Ht.
    + rewrite HT, !str_length_app. cbn [String.length]. lia.
  - cbn [Py.find Py.startswith]. rewrite Ascii.eqb_refl. cbn [fmap option_fmap option_map].
    replace (String.length (pre ++ P) + (String.length v + 0) - String.length (pre ++ P))%nat
      with (String.length v) by lia.
    apply take_app.
Qed.




(** ** The resolvers *)

Ltac fields :=
  cbn [Handlers.notifications Handlers.users Handlers.state Handlers.data Handlers.trace
       Methods.notifications Methods.user_data Methods.trace].

Ltac run :=
  unfold bind, ret, raise, modify, try_except; fields.

(** [Handlers.__get_notification] reads the store once, at the id its
    source names, and leaves the dialogue as it was. *)
Lemma Handlers_get_notification_eq source (w : Handlers.world) :
  Handlers.get_notification source w =
  let entry := match source with
               | inl callback_data => callback_data !! "notification_id"
               | inr _ => Handlers.data w !! "notification_id"
               end in
  let w' := Handlers.mk (Handlers.notifications w) (Handlers.users w) (Handlers.state w)
              (Handlers.data w)
              (Handlers.trace w ++ [DbGetNotification (default (VInt 0) entry)]) in
  match Handlers_lookup w entry with
  | Some n => Ok n w'
  | None => Raise NotificationNotFoundError w'
  end.
Proof.
  unfold Handlers.get_notification, Handlers_lookup, Handlers.db_get,
    SQLiteNotifications.get_by_id.
  destruct source as [cd|st]; run; cbn [Handlers.notifications];
    match goal with
    | |- context [SQLiteNotifications.key ?v] => destruct (SQLiteNotifications.key v) as [i|]
    end; try reflexivity;
    now destruct (Handlers.notifications w !! i).
Qed.

(** The world [Methods.get_notification] leaves when the token names a
    stored notification: the record is cached in the session. *)
Lemma Methods_get_notification_explicit NOTIFICATION NOTIFICATION_ID update w d N n :
  Methods.user_data w = Some d ->
  Methods.get_callback_variable update NOTIFICATION_ID <> "" ->
  Py.int (Methods.get_callback_variable update NOTIFICATION_ID) = Some N ->
  Methods.notifications w !! N = Some n ->
  Methods.get_notification NOTIFICATION NOTIFICATION_ID update w
  = Ok n (Methods.mk (Methods.notifications w)
            (Some (<[NOTIFICATION := Methods.UNotification n]> d))
            (Methods.trace w ++ [DbGetNotification (VInt N)])).
Proof.
  intros Hd Hne Hint Hn. unfold Methods.get_notification.
  apply String.eqb_neq in Hne. rewrite Hne, Hint.
  unfold Methods.db_get, Methods.set_user_data, SQLiteNotifications.get_by_id. run.
  rewrite Hn. cbn [Methods.user_data Methods.notifications Methods.trace].
  rewrite Hd. reflexivity.
Qed.

(** Without an id in the token, [Methods.get_notification] answers from the
    session alone: the world is untouched and the store is not read. *)
Lemma Methods_get_notification_session NOTIFICATION NOTIFICATION_ID update w :
  Methods.get_callback_variable update NOTIFICATION_ID = "" ->
  Methods.get_notification NOTIFICATION NOTIFICATION_ID update w
  = match Methods_cached NOTIFICATION w with
    | Some n => Ok n w
    | None => Raise NotificationNotFoundError w
    end.
Proof.
  intros Hs. unfold Methods.get_notification, Methods_cached, Methods.get_user_data.
  rewrite Hs. run. cbn [String.eqb].
  destruct (Methods.user_data w) as [d|]; [|reflexivity].
  destruct (d !! NOTIFICATION) as [[n|v]|]; reflexivity.
Qed.


Lemma Methods_cached_Some NOTIFICATION w d n :
  Methods.user_data w = Some d ->
  d !! NOTIFICATION = Some (Methods.UNotification n) ->
  Methods_cached NOTIFICATION w = Some n.
Proof. intros Hd Hn. unfold Methods_cached. now rewrite Hd, Hn. Qed.

Lemma Handlers_lookup_Some (w : Handlers.world) entry v N n :
  entry = Some v -> SQLiteNotifications.key v = Some N ->
  Handlers.notifications w !! N = Some n ->
  Handlers_lookup w entry = Some n.
Proof. intros -> Hk Hn. unfold Handlers_lookup. simpl. now rewrite Hk. Qed.






(** C4 (as stated) fails in the python-telegram-bot integration: the store
    no longer has notification 5, the text turn carries no id, and
    [Methods.get_notification] still returns the record the session cached,
    without a read of the store. *)
Lemma stale_session_record_returned :
  Methods.get_callback_variable (text_update 7 "10") "notification_id" = "" /\
  Methods.notifications stale_methods_world
    !! NotificationModel.id sample_notification = None /\
  Methods.get_notification "notification" "notification_id"
    (text_update 7 "10") stale_methods_world
  = Ok sample_notification stale_methods_world.
Proof. vm_compute. repeat split. Qed.

(** C4 (amended). Session fallback of a turn without an explicit id. The
    aiogram resolver looks the id cached in the session up in the store at
    call time: it returns a record only when that lookup yields it, and a
    session that refers to a notification the store no longer has leads to
    [NotificationNotFoundError]. The python-telegram-bot resolver returns
    the record cached in the session as it is, whatever the store holds and
    without reading it. *)
Theorem session_fallback_revalidation
    (NOTIFICATION NOTIFICATION_ID : string) (update : Methods.Update)
    (w : Methods.world) (d : gmap string Methods.udata) (m : NotificationModel.t)
    (hw : Handlers.world) :
  Methods.user_data w = Some d ->
  Methods.get_callback_variable update NOTIFICATION_ID = "" ->
  d !! NOTIFICATION = Some (Methods.UNotification m) ->
  (forall n hw',
      Handlers.get_notification (inr Handlers.CurrentContext) hw = Ok n hw' ->
      Handlers_lookup hw (Handlers.data hw !! "notification_id") = Some n) /\
  (Handlers_lookup hw (Handlers.data hw !! "notification_id") = None ->
   outcome (Handlers.get_notification (inr Handlers.CurrentContext) hw)
   = inr NotificationNotFoundError) /\
  Methods.get_notification NOTIFICATION NOTIFICATION_ID update w = Ok m w.
Proof.
  intros Hd Hs Hm. split; [|split].
  - intros n hw'. rewrite Handlers_get_notification_eq. cbn zeta.
    destruct (Handlers_lookup hw (Handlers.data hw !! "notification_id")); congruence.
  - intros Hl. rewrite Handlers_get_notification_eq. cbn zeta. now rewrite Hl.
  - rewrite (Methods_get_notification_session _ _ _ _ Hs).
    now rewrite (Methods_cached_Some _ _ _ _ Hd Hm).
Qed.

Lemma session_fallback_revalidation_witness :
  Handlers_lookup orphaned_dialogue
    (Handlers.data orphaned_dialogue !! "notification_id") = None /\
  outcome (Handlers.get_notification (inr Handlers.CurrentContext) orphaned_dialogue)
  = inr NotificationNotFoundError.
Proof.
  split; [reflexivity|].
  destruct (session_fallback_revalidation "notification" "notification_id"
              (text_update 7 "10") stale_methods_world _ sample_notification
              orphaned_dialogue eq_refl eq_refl eq_refl) as (_ & H & _).
  apply H. reflexivity.
Defined.

(** C8 (as stated) fails in the aiogram integration: the callback names the
    stored notification 5 and the resolver returns it, but the session is
    left empty, and the next turn, which resolves from the session, finds
    nothing. *)
Lemma aiogram_resolver_does_not_cache :
  exists hw',
    Handlers.get_notification (inl sample_callback_data) sample_handlers_world
    = Ok sample_notification hw' /\
    Handlers.data hw' = ∅ /\
    outcome (Handlers.get_notification (inr Handlers.CurrentContext) hw')
    = inr NotificationNotFoundError.
Proof.
  eexists. split; [vm_compute; reflexivity|]. split; vm_compute; reflexivity.
Qed.

(** C8 (amended). Resolver caching. In the python-telegram-bot integration
    a resolve call whose token carries an explicit id found in the store
    caches the resolved record in the session before it returns it, so that a
    following turn without an id resolves the same notification. The aiogram
    resolver never writes the session: it leaves the state and the data of
    the dialogue as they were. *)
Theorem resolver_caches_explicit_target
    (NOTIFICATION NOTIFICATION_ID : string) (update next : Methods.Update)
    (w : Methods.world) (d : gmap string Methods.udata) (N : Z)
    (n : NotificationModel.t)
    (source : gmap string pyval + Handlers.FSMContext) (hw : Handlers.world) :
  Methods.user_data w = Some d ->
  Methods.get_callback_variable update NOTIFICATION_ID <> "" ->
  Py.int (Methods.get_callback_variable update NOTIFICATION_ID) = Some N ->
  Methods.notifications w !! N = Some n ->
  Methods.get_callback_variable next NOTIFICATION_ID = "" ->
  (exists w',
      Methods.get_notification NOTIFICATION NOTIFICATION_ID update w = Ok n w' /\
      Methods.user_data w' = Some (<[NOTIFICATION := Methods.UNotification n]> d) /\
      Methods.get_notification NOTIFICATION NOTIFICATION_ID next w' = Ok n w') /\
  Handlers.state (world_of (Handlers.get_notification source hw)) = Handlers.state hw /\
  Handlers.data (world_of (Handlers.get_notification source hw)) = Handlers.data hw.
Proof.
  intros Hd Hne Hint Hn Hnext. split; [|split].
  - eexists. split; [|split].
    + exact (Methods_get_notification_explicit _ _ _ _ _ _ _ Hd Hne Hint Hn).
    + reflexivity.
    + rewrite (Methods_get_notification_session _ _ _ _ Hnext).
      unfold Methods_cached. cbn [Methods.user_data]. now rewrite lookup_insert_eq.
  - rewrite Handlers_get_notification_eq. cbn zeta.
    now destruct (Handlers_lookup hw _).
  - rewrite Handlers_get_notification_eq. cbn zeta.
    now destruct (Handlers_lookup hw _).
Qed.

Lemma resolver_caches_explicit_target_witness :
  exists w',
    Methods.get_notification "notification" "notification_id"
      (callback_update 7 "show!notification_id=5") sample_methods_world
    = Ok sample_notification w' /\
    Methods.get_notification "notification" "notification_id" (text_update 7 "10") w'
    = Ok sample_notification w'.
Proof.
  assert (Hne : Methods.get_callback_variable
                  (callback_update 7 "show!notification_id=5") "notification_id" <> "")
    by (vm_compute; discriminate).
  destruct (resolver_caches_explicit_target "notification" "notification_id"
              (callback_update 7 "show!notification_id=5") (text_update 7 "10")
              sample_methods_world ∅ 5 sample_notification
              (inl sample_callback_data) sample_handlers_world
              eq_refl Hne eq_refl eq_refl eq_refl) as [(w' & H1 & _ & H3) _].
  exists w'. split; assumption.
Defined.

(** ** Dialogue triggers *)

Lemma overwrite_or_answer_eq m t kb (w : Handlers.world) :
  Handlers.overwrite_or_answer m t kb w
  = Ok tt (Handlers.mk (Handlers.notifications w) (Handlers.users w) (Handlers.state w)
             (Handlers.data w) (Handlers.trace w ++ [reply_event m t kb])).
Proof.
  unfold Handlers.overwrite_or_answer, reply_event, Handlers.emit. run.
  now destruct (Handlers.can_edit m).
Qed.

Lemma pinned_after_intro (hw : Handlers.world) s v tr :
  pinned_after hw
    (Handlers.mk (Handlers.notifications hw) (Handlers.users hw) (Some s)
       (<["notification_id" := v]> (Handlers.data hw)) tr) s v.
Proof.
  unfold pinned_after. cbn [Handlers.state Handlers.data Handlers.notifications].
  rewrite lookup_insert_eq. repeat split.
  intros M n Hk Hn. rewrite Handlers_get_notification_eq. cbn zeta.
  cbn [Handlers.data]. rewrite lookup_insert_eq.
  erewrite Handlers_lookup_Some; [reflexivity|reflexivity|exact Hk|exact Hn].
Qed.

Lemma Handlers_edit_min_price_pins q cd (hw : Handlers.world) v :
  cd !! "notification_id" = Some v ->
  exists hw', Handlers.edit_min_price q cd Handlers.CurrentContext hw = Ok tt hw' /\
              pinned_after hw hw' Handlers.EDIT_MIN_PRICE v.
Proof.
  intros Hv. unfold Handlers.edit_min_price, Handlers.store_notification_id,
    Handlers.set_state. rewrite Hv. run. rewrite overwrite_or_answer_eq. fields.
  eexists. split; [reflexivity|]. apply pinned_after_intro.
Qed.

Lemma Handlers_edit_max_price_pins q cd (hw : Handlers.world) v :
  cd !! "notification_id" = Some v ->
  exists hw', Handlers.edit_max_price q cd Handlers.CurrentContext hw = Ok tt hw' /\
              pinned_after hw hw' Handlers.EDIT_MAX_PRICE v.
Proof.
  intros Hv. unfold Handlers.edit_max_price, Handlers.store_notification_id,
    Handlers.set_state. rewrite Hv. run. rewrite overwrite_or_answer_eq. fields.
  eexists. split; [reflexivity|]. apply pinned_after_intro.
Qed.

Lemma Handlers_edit_query_pins q cd (hw : Handlers.world) v :
  cd !! "notification_id" = Some v ->
  exists hw', Handlers.edit_query q cd Handlers.CurrentContext hw = Ok tt hw' /\
              pinned_after hw hw' Handlers.EDIT_QUERY v.
Proof.
  intros Hv. unfold Handlers.edit_query, Handlers.store_notification_id,
    Handlers.set_state. rewrite Hv. run. rewrite overwrite_or_answer_eq. fields.
  eexists. split; [reflexivity|]. apply pinned_after_intro.
Qed.

(** [Methods.send_message] touches neither the store nor the session. *)
Lemma Methods_send_message_frame update t kb (w : Methods.world) :
  Methods.notifications (world_of (Methods.send_message update t kb w))
  = Methods.notifications w /\
  Methods.user_data (world_of (Methods.send_message update t kb w)) = Methods.user_data w.
Proof.
  unfold Methods.send_message, Methods.get_user_id, Methods.emit. run.
  destruct (Methods.effective_user update) as [uid|]; [|now split].
  destruct (Methods.callback_query update) as [cq|]; [|now split].
  destruct (Methods.message_id cq); now split.
Qed.

Lemma world_of_bind_ret {W A B} (c : M W A) (b : B) (w : W) :
  world_of (bind c (fun _ => ret b) w) = world_of (c w).
Proof. unfold bind, ret. now destruct (c w). Qed.

(** C5 (as stated) fails in the python-telegram-bot integration: the
    trigger is invoked with a callback that names notification 5, yet the
    session is left empty, and the text turn that follows cannot resolve
    the notification. *)
Lemma ptb_trigger_does_not_pin :
  exists w',
    Methods.get_callback_variable
      (callback_update 7 "edit_min_price!notification_id=5") "notification_id" = "5" /\
    Methods.update_min_price_trigger
      (callback_update 7 "edit_min_price!notification_id=5") sample_methods_world
    = Ok Methods.EDIT_MIN_PRICE w' /\
    Methods.user_data w' = Some ∅ /\
    outcome (Methods.update_min_price "notification" "notification_id"
               (text_update 7 "10") w')
    = inr NotificationNotFoundError.
Proof.
  eexists. split; [vm_compute; reflexivity|].
  split; [vm_compute; reflexivity|]. split; vm_compute; reflexivity.
Qed.

(** C5 (amended). Edit triggers of the aiogram integration pin the target:
    invoked with a callback that names notification M, [edit_min_price],
    [edit_max_price] and [edit_query] store M's id in the session and enter
    the awaiting state, so that the text turn that follows resolves M. The
    triggers of the python-telegram-bot integration leave the session as it
    is. *)
Theorem edit_trigger_pins_target
    (q : Handlers.CallbackQuery) (callback_data : gmap string pyval)
    (hw : Handlers.world) (v : pyval)
    (update : Methods.Update) (w : Methods.world) :
  callback_data !! "notification_id" = Some v ->
  (exists hw',
      Handlers.edit_min_price q callback_data Handlers.CurrentContext hw = Ok tt hw' /\
      pinned_after hw hw' Handlers.EDIT_MIN_PRICE v) /\
  (exists hw',
      Handlers.edit_max_price q callback_data Handlers.CurrentContext hw = Ok tt hw' /\
      pinned_after hw hw' Handlers.EDIT_MAX_PRICE v) /\
  (exists hw',
      Handlers.edit_query q callback_data Handlers.CurrentContext hw = Ok tt hw' /\
      pinned_after hw hw' Handlers.EDIT_QUERY v) /\
  Methods.user_data (world_of (Methods.update_min_price_trigger update w))
  = Methods.user_data w /\
  Methods.user_data (world_of (Methods.update_max_price_trigger update w))
  = Methods.user_data w /\
  Methods.user_data (world_of (Methods.update_query_trigger update w))
  = Methods.user_data w.
Proof.
  intros Hv. repeat split.
  - now apply Handlers_edit_min_price_pins.
  - now apply Handlers_edit_max_price_pins.
  - now apply Handlers_edit_query_pins.
  - unfold Methods.update_min_price_trigger. rewrite world_of_bind_ret.
    apply Methods_send_message_frame.
  - unfold Methods.update_max_price_trigger. rewrite world_of_bind_ret.
    apply Methods_send_message_frame.
  - unfold Methods.update_query_trigger. rewrite world_of_bind_ret.
    apply Methods_send_message_frame.
Qed.

Lemma edit_trigger_pins_target_witness :
  exists hw',
    Handlers.edit_min_price sample_query sample_callback_data Handlers.CurrentContext
      sample_handlers_world = Ok tt hw' /\
    outcome (Handlers.get_notification (inr Handlers.CurrentContext) hw')
    = inl sample_notification.
Proof.
  destruct (edit_trigger_pins_target sample_query sample_callback_data
              sample_handlers_world (VStr "5")
              (callback_update 7 "edit_min_price!notification_id=5")
              sample_methods_world eq_refl) as [(hw' & Heq & _ & _ & _ & Hres) _].
  exists hw'. split; [exact Heq|].
  apply (Hres 5); reflexivity.
Defined.

(** ** Cancel *)

(** [start] always returns; it leaves the dialogue and the notifications
    as they were. *)
Lemma Handlers_start_total m (w : Handlers.world) :
  exists w', Handlers.start m w = Ok tt w' /\
             Handlers.state w' = Handlers.state w /\
             Handlers.data w' = Handlers.data w /\
             Handlers.notifications w' = Handlers.notifications w.
Proof.
  unfold Handlers.start, Handlers.get_user, Handlers.user_get, Handlers.user_upsert,
    Handlers.db_get_by_user_id, SQLiteUser.get_by_id. run.
  cbn [Handlers.get_user_id Handlers.users].
  destruct (Handlers.users w !! chat_id (Handlers.chat m)) as [u|];
    cbn [Handlers.is_user_not_found]; rewrite overwrite_or_answer_eq;
    eexists; repeat split.
Qed.

(** C10. Cancel in Idle is a silent no-op: with no dialogue state the
    handler returns at once and leaves the world as it is, so no reply is
    sent, the store is not read, and neither the session nor the state
    changes. *)
Theorem cancel_idle_noop (m : Handlers.Message) (hw : Handlers.world) :
  Handlers.state hw = None ->
  Handlers.cancel m Handlers.CurrentContext hw = Ok tt hw.
Proof.
  intros Hs. unfold Handlers.cancel, Handlers.get_state. run. now rewrite Hs.
Qed.

Lemma cancel_idle_noop_witness :
  Handlers.state sample_handlers_world = None /\
  Handlers.cancel (sample_message "/cancel") Handlers.CurrentContext sample_handlers_world
  = Ok tt sample_handlers_world.
Proof.
  split; [reflexivity|].
  apply (cancel_idle_noop (sample_message "/cancel") sample_handlers_world).
  reflexivity.
Defined.

(** C6. Cancel with a missing target: when a dialogue is active and the
    notification its session is pinned to no longer resolves, [cancel]
    raises nothing; after the failed lookup it does what [start_over] (the
    home action) does, and it ends with the state reset and the session
    empty. *)
Theorem cancel_missing_target (m : Handlers.Message) (hw : Handlers.world)
    (s : Handlers.States) :
  Handlers.state hw = Some s ->
  Handlers_lookup hw (Handlers.data hw !! "notification_id") = None ->
  exists hw',
    Handlers.cancel m Handlers.CurrentContext hw = Ok tt hw' /\
    Handlers.start_over (inl m) Handlers.CurrentContext (after_lookup hw) = Ok tt hw' /\
    Handlers.state hw' = None /\
    Handlers.data hw' = ∅ /\
    Handlers.notifications hw' = Handlers.notifications hw.
Proof.
  intros Hs Hl.
  destruct (Handlers_start_total m
              (Handlers.mk (Handlers.notifications hw) (Handlers.users hw) None ∅
                 (Handlers.trace (after_lookup hw))))
    as (hw' & Hstart & Hst & Hdata & Hn).
  cbn [Handlers.state Handlers.data Handlers.notifications] in Hst, Hdata, Hn.
  assert (Hover : Handlers.start_over (inl m) Handlers.CurrentContext (after_lookup hw)
                  = Ok tt hw').
  { unfold Handlers.start_over, Handlers.finish_state, Handlers.get_state,
      Handlers.finish. run. cbn [after_lookup Handlers.state]. rewrite Hs.
    cbn [Handlers.message_of Handlers.notifications Handlers.users Handlers.trace].
    exact Hstart. }
  exists hw'. repeat split; try assumption.
  unfold Handlers.cancel. unfold Handlers.get_state at 1. run. rewrite Hs.
  rewrite Handlers_get_notification_eq. cbn zeta. rewrite Hl.
  cbn [Handlers.is_notification_not_found]. fold (after_lookup hw).
  rewrite Hover.
  unfold Handlers.finish_state, Handlers.get_state. run. now rewrite Hst.
Qed.

Lemma cancel_missing_target_witness :
  exists hw',
    Handlers.cancel (sample_message "/cancel") Handlers.CurrentContext orphaned_dialogue
    = Ok tt hw' /\
    Handlers.state hw' = None /\ Handlers.data hw' = ∅.
Proof.
  destruct (cancel_missing_target (sample_message "/cancel") orphaned_dialogue
              Handlers.EDIT_MIN_PRICE eq_refl eq_refl) as (hw' & H1 & _ & H3 & H4 & _).
  exists hw'. repeat split; assumption.
Defined.

(** ** Toggle only-hot *)

Lemma flipped_flipped n : flipped (flipped n) = n.
Proof. destruct n. unfold flipped. cbn. now rewrite negb_involutive. Qed.

Lemma flipped_id n : NotificationModel.id (flipped n) = NotificationModel.id n.
Proof. reflexivity. Qed.

Lemma writes_app l1 l2 : writes (l1 ++ l2) = (writes l1 + writes l2)%nat.
Proof.
  induction l1 as [|e l1 IH]; [reflexivity|].
  cbn [app writes]. rewrite IH. lia.
Qed.

Lemma table_wf_lookup db i n :
  table_wf db -> db !! i = Some n -> NotificationModel.id n = i /\ i <> 0.
Proof.
  intros [H0 Hid] Hn. split; [now apply Hid|]. intros ->. congruence.
Qed.

Lemma upsert_model_saved db n :
  NotificationModel.id n <> 0 ->
  SQLiteNotifications.upsert_model db n
  = (<[NotificationModel.id n := n]> db, NotificationModel.id n).
Proof.
  intros Hne. unfold SQLiteNotifications.upsert_model.
  apply Z.eqb_neq in Hne. now rewrite Hne.
Qed.

(** One [Handlers.toggle_only_hot]: a read, the one write of the flipped
    record, the read of [show_notification], and the overview. *)
Lemma Handlers_toggle_step q cd (hw : Handlers.world) v N n :
  cd !! "notification_id" = Some v ->
  SQLiteNotifications.key v = Some N ->
  Handlers.notifications hw !! N = Some n ->
  NotificationModel.id n = N -> N <> 0 ->
  Handlers.toggle_only_hot q cd hw
  = Ok tt (Handlers.mk (<[N := flipped n]> (Handlers.notifications hw))
             (Handlers.users hw) (Handlers.state hw) (Handlers.data hw)
             (Handlers.trace hw
              ++ [DbGetNotification v; DbUpsertNotification (flipped n);
                  DbGetNotification v;
                  reply_event (Handlers.message q) (notification_overview (flipped n))
                    (Some (kb_notification_commands (flipped n)))])).
Proof.
  intros Hv Hk Hn Hid HN.
  unfold Handlers.toggle_only_hot, Handlers.show_notification. unfold bind at 1.
  rewrite Handlers_get_notification_eq. cbn zeta.
  rewrite (Handlers_lookup_Some _ _ _ _ _ Hv Hk Hn). fold (flipped n).
  unfold bind at 1. unfold Handlers.db_upsert. fields.
  rewrite upsert_model_saved by (rewrite flipped_id; congruence).
  rewrite flipped_id, Hid. unfold bind at 1.
  rewrite Handlers_get_notification_eq. cbn zeta. fields.
  erewrite Handlers_lookup_Some;
    [|exact Hv|exact Hk|cbn [Handlers.notifications]; apply lookup_insert_eq].
  rewrite overwrite_or_answer_eq. fields. rewrite Hv. cbn [default from_option id].
  rewrite <- !app_assoc. reflexivity.
Qed.

Lemma get_callback_variable_query update k :
  Methods.get_callback_variable update k <> "" ->
  exists cq, Methods.callback_query update = Some cq.
Proof.
  unfold Methods.get_callback_variable.
  destruct (Methods.callback_query update) as [cq|]; [eauto|congruence].
Qed.

Lemma alter_lookup_insert (db : gmap Z NotificationModel.t) f i n :
  db !! i = Some n -> alter f i db = <[i := f n]> db.
Proof.
  intros Hn. apply map_eq. intros j. destruct (decide (i = j)) as [->|Hne].
  - now rewrite lookup_alter_eq, lookup_insert_eq, Hn.
  - now rewrite lookup_alter_ne, lookup_insert_ne.
Qed.

(** One [Methods.toggle_only_hot] on a callback that names a stored
    notification: a read, the one write of the flag, the read of
    [show_notification], and the overview. *)
Lemma Methods_toggle_step NOTIFICATION NOTIFICATION_ID update (w : Methods.world) d N n :
  Methods.user_data w = Some d ->
  Methods.get_callback_variable update NOTIFICATION_ID <> "" ->
  Py.int (Methods.get_callback_variable update NOTIFICATION_ID) = Some N ->
  Methods.notifications w !! N = Some n ->
  NotificationModel.id n = N ->
  exists d',
    Methods.toggle_only_hot NOTIFICATION NOTIFICATION_ID update w
    = Ok tt (Methods.mk (<[N := flipped n]> (Methods.notifications w)) (Some d')
               (Methods.trace w
                ++ [DbGetNotification (VInt N);
                    DbUpdateNotification N ONLY_HOT
                      (VBool (negb (NotificationModel.search_only_hot n)));
                    DbGetNotification (VInt N);
                    EditText (notification_overview (flipped n)) None;
                    EditReplyMarkup (Some (kb_notification_commands (flipped n)))])).
Proof.
  intros Hd Hne Hint Hn Hid.
  destruct (get_callback_variable_query _ _ Hne) as [cq Hcq].
  unfold Methods.toggle_only_hot, Methods.show_notification. unfold bind at 1.
  rewrite (Methods_get_notification_explicit _ _ _ _ _ _ _ Hd Hne Hint Hn).
  fold (flipped n). unfold Methods.assign, Methods.db_update. run.
  rewrite flipped_id, Hid.
  unfold SQLiteNotifications.update.
  rewrite (alter_lookup_insert _ _ _ _ Hn).
  change (SQLiteNotifications.set_column ONLY_HOT
            (VBool (NotificationModel.search_only_hot (flipped n))) n)
    with (flipped n).
  erewrite Methods_get_notification_explicit;
    [|reflexivity|exact Hne|exact Hint|cbn [Methods.notifications]; apply lookup_insert_eq].
  unfold Methods.overwrite_message, Methods.emit. rewrite Hcq. run.
  eexists. rewrite <- !app_assoc. reflexivity.
Qed.

(** C9. Toggle involution: invoking "toggle only-hot" twice in a row on a
    callback that names the stored notification N gives the flag its
    inverted value after the first invocation and its original value after
    the second (the table is again the original one), and each invocation adds
    exactly one store write to the trace. In both integrations. *)
Theorem toggle_only_hot_twice
    (NOTIFICATION NOTIFICATION_ID : string) (update : Methods.Update)
    (w : Methods.world) (d : gmap string Methods.udata)
    (q : Handlers.CallbackQuery) (callback_data : gmap string pyval)
    (hw : Handlers.world) (v : pyval) (N : Z) (n hn : NotificationModel.t) :
  table_wf (Methods.notifications w) ->
  Methods.user_data w = Some d ->
  Methods.get_callback_variable update NOTIFICATION_ID <> "" ->
  Py.int (Methods.get_callback_variable update NOTIFICATION_ID) = Some N ->
  Methods.notifications w !! N = Some n ->
  table_wf (Handlers.notifications hw) ->
  callback_data !! "notification_id" = Some v ->
  SQLiteNotifications.key v = Some N ->
  Handlers.notifications hw !! N = Some hn ->
  (exists w1 w2,
      Methods.toggle_only_hot NOTIFICATION NOTIFICATION_ID update w = Ok tt w1 /\
      Methods.toggle_only_hot NOTIFICATION NOTIFICATION_ID update w1 = Ok tt w2 /\
      Methods.notifications w1 !! N = Some (flipped n) /\
      Methods.notifications w2 !! N = Some n /\
      Methods.notifications w2 = Methods.notifications w /\
      writes (Methods.trace w1) = S (writes (Methods.trace w)) /\
      writes (Methods.trace w2) = S (writes (Methods.trace w1))) /\
  (exists hw1 hw2,
      Handlers.toggle_only_hot q callback_data hw = Ok tt hw1 /\
      Handlers.toggle_only_hot q callback_data hw1 = Ok tt hw2 /\
      Handlers.notifications hw1 !! N = Some (flipped hn) /\
      Handlers.notifications hw2 !! N = Some hn /\
      Handlers.notifications hw2 = Handlers.notifications hw /\
      writes (Handlers.trace hw1) = S (writes (Handlers.trace hw)) /\
      writes (Handlers.trace hw2) = S (writes (Handlers.trace hw1))).
Proof.
  intros Hwf Hd Hne Hint Hn Hhwf Hv Hk Hhn.
  destruct (table_wf_lookup _ _ _ Hwf Hn) as [Hid HN].
  destruct (table_wf_lookup _ _ _ Hhwf Hhn) as [Hhid _].
  split.
  - destruct (Methods_toggle_step NOTIFICATION NOTIFICATION_ID update w d N n
                Hd Hne Hint Hn Hid) as [d1 H1].
    match type of H1 with
    | _ = Ok _ ?w1 =>
        destruct (Methods_toggle_step NOTIFICATION NOTIFICATION_ID update w1 d1 N
                    (flipped n) eq_refl Hne Hint (lookup_insert_eq _ _ _) Hid) as [d2 H2]
    end.
    eexists _, _. split; [exact H1|]. split; [exact H2|].
    fields. rewrite flipped_flipped, insert_insert_eq, (insert_id _ _ _ Hn).
    repeat split.
    + apply lookup_insert_eq.
    + exact Hn.
    + rewrite writes_app. cbn. lia.
    + rewrite writes_app. cbn. lia.
  - pose proof (Handlers_toggle_step q callback_data hw v N hn Hv Hk Hhn Hhid HN) as H1.
    match type of H1 with
    | _ = Ok _ ?hw1 =>
        pose proof (Handlers_toggle_step q callback_data hw1 v N (flipped hn) Hv Hk
                      (lookup_insert_eq _ _ _) Hhid HN) as H2
    end.
    eexists _, _. split; [exact H1|]. split; [exact H2|].
    fields. rewrite flipped_flipped, insert_insert_eq, (insert_id _ _ _ Hhn).
    repeat split.
    + apply lookup_insert_eq.
    + exact Hhn.
    + rewrite writes_app. unfold reply_event.
      destruct (Handlers.can_edit (Handlers.message q)); cbn; lia.
    + rewrite writes_app. unfold reply_event.
      destruct (Handlers.can_edit (Handlers.message q)); cbn; lia.
Qed.

Lemma table_wf_sample : table_wf {[ 5 := sample_notification ]}.
Proof.
  split; [reflexivity|].
  intros i n Hl. apply lookup_singleton_Some in Hl as [<- <-]. reflexivity.
Qed.

Lemma toggle_only_hot_twice_witness :
  exists hw1 hw2,
    Handlers.toggle_only_hot sample_query sample_callback_data sample_handlers_world
    = Ok tt hw1 /\
    Handlers.toggle_only_hot sample_query sample_callback_data hw1 = Ok tt hw2 /\
    Handlers.notifications hw2 !! 5 = Some sample_notification /\
    writes (Handlers.trace hw2) = 2%nat.
Proof.
  assert (Hne : Methods.get_callback_variable
                  (callback_update 7 "toggle!notification_id=5") "notification_id" <> "")
    by (vm_compute; discriminate).
  destruct (toggle_only_hot_twice "notification" "notification_id"
              (callback_update 7 "toggle!notification_id=5") sample_methods_world ∅
              sample_query sample_callback_data sample_handlers_world (VStr "5") 5
              sample_notification sample_notification
              table_wf_sample eq_refl Hne eq_refl eq_refl
              table_wf_sample eq_refl eq_refl eq_refl)
    as [_ (hw1 & hw2 & H1 & H2 & _ & H4 & _ & H6 & H7)].
  exists hw1, hw2. repeat split; try assumption.
  rewrite H7, H6. reflexivity.
Defined.

(** ** Price input *)

Lemma round_float_12_50 {W} (w : W) : round_float "12,50" w = Ok 12 w.
Proof. unfold round_float. vm_compute. reflexivity. Qed.

(** A valid price input is stored as a non-negative integer. *)
Lemma price_input_valid_round input :
  price_input_valid input = true ->
  exists z, 0 <= z /\
    forall W (w : W),
      round_float (if String.eqb input "/remove" then "0" else input) w = Ok z w.
Proof.
  unfold price_input_valid. destruct (String.eqb input "/remove").
  - intros _. exists 0. split; [lia|]. intros W w. vm_compute. reflexivity.
  - rewrite orb_false_l. unfold round_float.
    destruct (Py.float_of_string (Py.replace "," "." input)) as [x|]; [|discriminate].
    destruct (Py.round x) as [z| |]; try discriminate.
    intros Hz. exists z. split; [now apply Z.leb_le|]. reflexivity.
Qed.

Lemma Handlers_price_text m input :
  Handlers.text m = Some input ->
  Handlers.price_of (Handlers.price_text m)
  = round_float (if String.eqb input "/remove" then "0" else input).
Proof.
  intros Ht. unfold Handlers.price_text. rewrite Ht.
  change ("/" ++ Handlers.REMOVE) with "/remove".
  now destruct (String.eqb input "/remove").
Qed.

(** [Handlers.process_edit_min_price] on an input that rounds to [z], in a
    dialogue pinned to a stored notification. *)
Lemma Handlers_process_edit_min_price_eq m (hw : Handlers.world) input z v M n :
  Handlers.text m = Some input ->
  (forall w : Handlers.world,
      round_float (if String.eqb input "/remove" then "0" else input) w = Ok z w) ->
  Handlers.data hw !! "notification_id" = Some v ->
  SQLiteNotifications.key v = Some M ->
  Handlers.notifications hw !! M = Some n ->
  NotificationModel.id n = M -> M <> 0 ->
  Handlers.process_edit_min_price m Handlers.CurrentContext hw
  = Ok tt (Handlers.mk (<[M := NotificationModel.set_min_price z n]> (Handlers.notifications hw))
             (Handlers.users hw) None ∅
             (Handlers.trace hw
              ++ [DbGetNotification v;
                  DbUpsertNotification (NotificationModel.set_min_price z n);
                  reply_event m (query_updated (NotificationModel.set_min_price z n))
                    (Some (kb_notification_commands (NotificationModel.set_min_price z n)))])).
Proof.
  intros Ht Hz Hv Hk Hn Hid HM.
  unfold Handlers.process_edit_min_price. unfold bind at 1.
  rewrite Handlers_get_notification_eq. cbn zeta.
  rewrite (Handlers_lookup_Some _ _ _ _ _ Hv Hk Hn), Hv. cbn [default from_option id].
  unfold bind at 1. rewrite (Handlers_price_text _ _ Ht), Hz.
  unfold bind at 1. unfold Handlers.db_upsert. fields.
  rewrite upsert_model_saved by (cbn; congruence).
  change (NotificationModel.id (NotificationModel.set_min_price z n))
    with (NotificationModel.id n). rewrite Hid.
  unfold bind at 1. rewrite overwrite_or_answer_eq. fields.
  unfold Handlers.finish. run. rewrite <- !app_assoc. reflexivity.
Qed.

(** [Methods.update_min_price] on a text turn whose input rounds to [z],
    with a record cached in the session. *)
Lemma Methods_update_min_price_eq NOTIFICATION NOTIFICATION_ID update
    (w : Methods.world) input z uid d n :
  Methods.message update = Some (Some input) ->
  Methods.callback_query update = None ->
  Methods.effective_user update = Some uid ->
  (forall w : Methods.world,
      round_float (if String.eqb input "/remove" then "0" else input) w = Ok z w) ->
  Methods.user_data w = Some d ->
  d !! NOTIFICATION = Some (Methods.UNotification n) ->
  Methods.update_min_price NOTIFICATION NOTIFICATION_ID update w
  = Ok Methods.END_CONVERSATION
      (Methods.mk
         (alter (NotificationModel.set_min_price z) (NotificationModel.id n)
            (Methods.notifications w))
         (Some (<[NOTIFICATION := Methods.UNotification (NotificationModel.set_min_price z n)]> d))
         (Methods.trace w
          ++ [DbUpdateNotification (NotificationModel.id n) MIN_PRICE (VInt z);
              SendMessage uid (query_updated (NotificationModel.set_min_price z n))
                (Some (kb_notification_commands (NotificationModel.set_min_price z n)))])).
Proof.
  intros Hm Hcq Hu Hz Hd Hn.
  assert (Hs : Methods.get_callback_variable update NOTIFICATION_ID = "")
    by (unfold Methods.get_callback_variable; now rewrite Hcq).
  unfold Methods.update_min_price. unfold bind at 1.
  rewrite (Methods_get_notification_session _ _ _ _ Hs).
  rewrite (Methods_cached_Some _ _ _ _ Hd Hn).
  unfold Methods.get_text. rewrite Hm. unfold bind at 1. rewrite Hz.
  unfold Methods.assign, Methods.db_update, Methods.send_message, Methods.get_user_id,
    Methods.emit. rewrite Hu, Hcq. run. rewrite Hd.
  unfold SQLiteNotifications.update.
  change (NotificationModel.id (NotificationModel.set_min_price z n))
    with (NotificationModel.id n).
  change (NotificationModel.min_price (NotificationModel.set_min_price z n)) with z.
  rewrite <- !app_assoc. reflexivity.
Qed.

(** C3 (as stated) fails: in a minimum-price dialogue pinned to the stored
    notification 5, the text "12,50" makes the store receive the minimum
    price 12, not 13, in both integrations: [float("12.50")] is exactly 12.5
    and [round] rounds a half to the even neighbour. *)
Lemma min_price_12_50_is_12 :
  Py.float_of_string (Py.replace "," "." "12,50")
    = Some (Py.Finite false (25 * 2 ^ 48) (-49)) /\
  Py.round (Py.Finite false (25 * 2 ^ 48) (-49)) = Py.RInt 12 /\
  (exists hw',
      Handlers.process_edit_min_price (sample_message "12,50") Handlers.CurrentContext
        min_price_dialogue = Ok tt hw' /\
      NotificationModel.min_price <$> Handlers.notifications hw' !! 5 = Some 12) /\
  (exists w',
      Methods.update_min_price "notification" "notification_id" (text_update 7 "12,50")
        (Methods.mk {[ 5 := sample_notification ]}
           (Some {[ "notification" := Methods.UNotification sample_notification ]}) [])
      = Ok Methods.END_CONVERSATION w' /\
      NotificationModel.min_price <$> Methods.notifications w' !! 5 = Some 12) /\
  12 <> 13.
Proof.
  repeat split; try (vm_compute; reflexivity); try lia.
  - eexists. vm_compute. split; reflexivity.
  - eexists. vm_compute. split; reflexivity.
Qed.

(** C3 (amended). Price-input processing: in state AwaitingMinPrice with
    the session pinned to an existing notification M, the text "12,50"
    ends the dialogue (Idle) and makes the store receive [min_price = 12] for
    M: the comma is normalized to a period and 12.5 is rounded half to
    even. In both integrations. *)
Theorem min_price_input_12_50
    (NOTIFICATION NOTIFICATION_ID : string) (update : Methods.Update)
    (w : Methods.world) (uid : Z) (d : gmap string Methods.udata)
    (n n0 : NotificationModel.t)
    (m : Handlers.Message) (hw : Handlers.world) (v : pyval) (M : Z)
    (hn : NotificationModel.t) :
  Methods.message update = Some (Some "12,50") ->
  Methods.callback_query update = None ->
  Methods.effective_user update = Some uid ->
  Methods.user_data w = Some d ->
  d !! NOTIFICATION = Some (Methods.UNotification n) ->
  Methods.notifications w !! NotificationModel.id n = Some n0 ->
  Handlers.text m = Some "12,50" ->
  Handlers.state hw = Some Handlers.EDIT_MIN_PRICE ->
  table_wf (Handlers.notifications hw) ->
  Handlers.data hw !! "notification_id" = Some v ->
  SQLiteNotifications.key v = Some M ->
  Handlers.notifications hw !! M = Some hn ->
  (exists w',
      Methods.update_min_price NOTIFICATION NOTIFICATION_ID update w
      = Ok Methods.END_CONVERSATION w' /\
      Methods.notifications w' !! NotificationModel.id n
      = Some (NotificationModel.set_min_price 12 n0) /\
      DbUpdateNotification (NotificationModel.id n) MIN_PRICE (VInt 12) ∈ Methods.trace w') /\
  (exists hw',
      Handlers.process_edit_min_price m Handlers.CurrentContext hw = Ok tt hw' /\
      Handlers.state hw' = None /\
      Handlers.notifications hw' !! M = Some (NotificationModel.set_min_price 12 hn) /\
      DbUpsertNotification (NotificationModel.set_min_price 12 hn) ∈ Handlers.trace hw').
Proof.
  intros Hm Hcq Hu Hd Hn Hn0 Ht Hs Hwf Hv Hk Hhn.
  destruct (table_wf_lookup _ _ _ Hwf Hhn) as [Hid HM].
  split.
  - eexists. split; [|split].
    + apply (Methods_update_min_price_eq _ _ _ _ "12,50" 12 uid d n); try assumption.
      intros w0. apply round_float_12_50.
    + fields. now rewrite lookup_alter_eq, Hn0.
    + fields. set_solver.
  - eexists. split; [|split; [|split]].
    + apply (Handlers_process_edit_min_price_eq m hw "12,50" 12 v M hn); try assumption.
      intros w0. apply round_float_12_50.
    + reflexivity.
    + fields. apply lookup_insert_eq.
    + fields. set_solver.
Qed.

Lemma min_price_input_12_50_witness :
  exists hw',
    Handlers.process_edit_min_price (sample_message "12,50") Handlers.CurrentContext
      min_price_dialogue = Ok tt hw' /\
    Handlers.state hw' = None /\
    Handlers.notifications hw' !! 5
    = Some (NotificationModel.set_min_price 12 sample_notification).
Proof.
  odestruct (min_price_input_12_50 "notification" "notification_id"
               (text_update 7 "12,50")
               (Methods.mk {[ 5 := sample_notification ]}
                  (Some {[ "notification" := Methods.UNotification sample_notification ]}) [])
               7 _ sample_notification sample_notification
               (sample_message "12,50") min_price_dialogue (VStr "5") 5 sample_notification
               _ _ _ _ _ _ _ _ table_wf_sample _ _ _)
    as [_ (hw' & H1 & H2 & H3 & _)]; try reflexivity.
  exists hw'. repeat split; assumption.
Defined.

(** ** The price invariant *)

Lemma triple_bind {W A B} (P : W -> Prop) (c : M W A) (k : A -> M W B) R Q E :
  triple P c R E -> (forall a, triple (R a) (k a) Q E) -> triple P (bind c k) Q E.
Proof.
  intros Hc Hk w HP. unfold bind. specialize (Hc w HP).
  destruct (c w) as [a w'|e w']; [|exact Hc]. now apply Hk.
Qed.

Lemma triple_ret {W A} (P : W -> Prop) (a : A) (Q : A -> W -> Prop) E :
  (forall w, P w -> Q a w) -> triple P (ret a) Q E.
Proof. intros H w HP. now apply H. Qed.

Lemma triple_assume {W A} (P : W -> Prop) (phi : Prop) (c : M W A) Q E :
  (phi -> triple P c Q E) -> triple (fun w => P w /\ phi) c Q E.
Proof. intros H w [HP Hphi]. now apply H. Qed.

Lemma triple_world_of {W A} (P : W -> Prop) (c : M W A) (Q : A -> W -> Prop) w :
  triple P c Q P -> (forall a w', Q a w' -> P w') -> P w -> P (world_of (c w)).
Proof.
  intros Hc HQ HP. specialize (Hc w HP). destruct (c w); cbn; [now apply (HQ a)|exact Hc].
Qed.

Lemma prices_nonneg_insert db i n :
  prices_nonneg db ->
  0 <= NotificationModel.min_price n -> 0 <= NotificationModel.max_price n ->
  prices_nonneg (<[i := n]> db).
Proof.
  intros Hdb Hmin Hmax j r Hl. destruct (decide (i = j)) as [->|Hne].
  - rewrite lookup_insert_eq in Hl. injection Hl as <-. now split.
  - rewrite lookup_insert_ne in Hl by assumption. now apply (Hdb j).
Qed.

Lemma prices_nonneg_upsert db n :
  prices_nonneg db ->
  0 <= NotificationModel.min_price n -> 0 <= NotificationModel.max_price n ->
  prices_nonneg (fst (SQLiteNotifications.upsert_model db n)).
Proof.
  intros Hdb Hmin Hmax. unfold SQLiteNotifications.upsert_model.
  destruct (NotificationModel.id n =? 0); cbn [fst]; now apply prices_nonneg_insert.
Qed.

Lemma prices_nonneg_update db i c z :
  prices_nonneg db -> 0 <= z ->
  prices_nonneg (SQLiteNotifications.update db i c (VInt z)).
Proof.
  intros Hdb Hz j r Hl. unfold SQLiteNotifications.update in Hl.
  destruct (decide (i = j)) as [->|Hne].
  - rewrite lookup_alter_eq in Hl.
    destruct (db !! j) as [r0|] eqn:Hr0; [|discriminate].
    cbn in Hl. injection Hl as <-. destruct (Hdb j r0 Hr0) as [Hmin Hmax].
    destruct c; cbn; now split.
  - rewrite lookup_alter_ne in Hl by assumption. now apply (Hdb j).
Qed.

(** *** aiogram *)

Lemma Handlers_get_notification_ok source :
  triple Handlers_prices_ok (Handlers.get_notification source)
    (fun n w => Handlers_prices_ok w /\
                0 <= NotificationModel.min_price n /\ 0 <= NotificationModel.max_price n)
    Handlers_prices_ok.
Proof.
  intros w HP. rewrite Handlers_get_notification_eq. cbn zeta.
  unfold Handlers_lookup.
  destruct (SQLiteNotifications.key _) as [i|]; [|exact HP].
  destruct (Handlers.notifications w !! i) as [n|] eqn:Hn; [|exact HP].
  split; [exact HP|]. now apply (HP i).
Qed.

Lemma Handlers_price_of_ok m input :
  Handlers.text m = Some input -> price_input_valid input = true ->
  triple Handlers_prices_ok (Handlers.price_of (Handlers.price_text m))
    (fun z w => Handlers_prices_ok w /\ 0 <= z) Handlers_prices_ok.
Proof.
  intros Ht Hvalid w HP. rewrite (Handlers_price_text _ _ Ht).
  destruct (price_input_valid_round _ Hvalid) as (z & Hz & Hround).
  rewrite Hround. now split.
Qed.

Lemma Handlers_db_upsert_ok n :
  0 <= NotificationModel.min_price n -> 0 <= NotificationModel.max_price n ->
  triple Handlers_prices_ok (Handlers.db_upsert n) (fun _ w => Handlers_prices_ok w)
    Handlers_prices_ok.
Proof.
  intros Hmin Hmax w HP. unfold Handlers.db_upsert.
  pose proof (prices_nonneg_upsert _ n HP Hmin Hmax) as H.
  destruct (SQLiteNotifications.upsert_model (Handlers.notifications w) n). exact H.
Qed.

Lemma Handlers_reply_ok m t kb :
  triple Handlers_prices_ok (Handlers.overwrite_or_answer m t kb)
    (fun _ w => Handlers_prices_ok w) Handlers_prices_ok.
Proof. intros w HP. rewrite overwrite_or_answer_eq. exact HP. Qed.

Lemma Handlers_finish_ok :
  triple Handlers_prices_ok Handlers.finish (fun _ w => Handlers_prices_ok w)
    Handlers_prices_ok.
Proof. intros w HP. exact HP. Qed.

Lemma Handlers_process_edit_min_price_ok m input :
  Handlers.text m = Some input -> price_input_valid input = true ->
  triple Handlers_prices_ok (Handlers.process_edit_min_price m Handlers.CurrentContext)
    (fun _ w => Handlers_prices_ok w) Handlers_prices_ok.
Proof.
  intros Ht Hvalid. unfold Handlers.process_edit_min_price.
  eapply triple_bind; [apply Handlers_get_notification_ok|].
  intros n. apply triple_assume. intros [Hmin Hmax].
  eapply triple_bind; [now apply (Handlers_price_of_ok m input)|].
  intros z. apply triple_assume. intros Hz.
  eapply triple_bind; [now apply Handlers_db_upsert_ok|]. intros ?.
  eapply triple_bind; [apply Handlers_reply_ok|]. intros ?.
  apply Handlers_finish_ok.
Qed.

Lemma Handlers_process_edit_max_price_ok m input :
  Handlers.text m = Some input -> price_input_valid input = true ->
  triple Handlers_prices_ok (Handlers.process_edit_max_price m Handlers.CurrentContext)
    (fun _ w => Handlers_prices_ok w) Handlers_prices_ok.
Proof.
  intros Ht Hvalid. unfold Handlers.process_edit_max_price.
  eapply triple_bind; [apply Handlers_get_notification_ok|].
  intros n. apply triple_assume. intros [Hmin Hmax].
  eapply triple_bind; [now apply (Handlers_price_of_ok m input)|].
  intros z. apply triple_assume. intros Hz.
  eapply triple_bind; [now apply Handlers_db_upsert_ok|]. intros ?.
  eapply triple_bind; [apply Handlers_reply_ok|]. intros ?.
  apply Handlers_finish_ok.
Qed.

(** [invalid_price] replies, with the text for the maximum price in either
    dialogue, and changes nothing else. *)
Lemma Handlers_invalid_price_eq m (w : Handlers.world) :
  Handlers.invalid_price m Handlers.CurrentContext w
  = Ok tt (Handlers.mk (Handlers.notifications w) (Handlers.users w) (Handlers.state w)
             (Handlers.data w)
             (Handlers.trace w ++ [reply_event m (invalid_price "Max") None])).
Proof.
  unfold Handlers.invalid_price, Handlers.get_state, Handlers.state_name_eq. run.
  now rewrite overwrite_or_answer_eq.
Qed.

Lemma Handlers_price_turn_ok m :
  triple Handlers_prices_ok (Handlers_price_turn m Handlers.CurrentContext)
    (fun _ w => Handlers_prices_ok w) Handlers_prices_ok.
Proof.
  unfold Handlers_price_turn.
  eapply (triple_bind _ _ _ (fun _ w => Handlers_prices_ok w)); [now intros w HP|].
  intros s.
  assert (Hinv : triple Handlers_prices_ok (Handlers.invalid_price m Handlers.CurrentContext)
                   (fun _ w => Handlers_prices_ok w) Handlers_prices_ok)
    by (intros w HP; now rewrite Handlers_invalid_price_eq).
  assert (Hret : triple Handlers_prices_ok (ret tt : M Handlers.world unit)
                   (fun _ w => Handlers_prices_ok w) Handlers_prices_ok)
    by now apply triple_ret.
  destruct s as [[| | |]|]; try exact Hret;
    destruct (Handlers.text m) as [input|] eqn:Ht; try exact Hret;
    destruct (price_input_valid input) eqn:Hvalid; try exact Hinv.
  - now apply (Handlers_process_edit_min_price_ok m input).
  - now apply (Handlers_process_edit_max_price_ok m input).
Qed.

(** *** python-telegram-bot *)

Lemma Methods_get_notification_ok NOTIFICATION NOTIFICATION_ID update :
  triple Methods_prices_ok (Methods.get_notification NOTIFICATION NOTIFICATION_ID update)
    (fun _ w => Methods_prices_ok w) Methods_prices_ok.
Proof.
  intros w HP. unfold Methods.get_notification, Methods.db_get, Methods.set_user_data,
    Methods.get_user_data. run.
  destruct (String.eqb _ ""); fields.
  - destruct (Methods.user_data w) as [d|]; [|exact HP].
    destruct (d !! NOTIFICATION) as [[n|v]|]; exact HP.
  - destruct (Py.int _) as [i|]; [|exact HP]. fields.
    destruct (SQLiteNotifications.get_by_id (Methods.notifications w) i) as [n|]; fields.
    + destruct (Methods.user_data w) as [d|]; exact HP.
    + destruct (Methods.user_data w) as [d|]; [|exact HP].
      destruct (d !! NOTIFICATION) as [[n|v]|]; exact HP.
Qed.

Lemma Methods_round_float_ok input :
  price_input_valid input = true ->
  triple Methods_prices_ok
    (round_float (if String.eqb input "/remove" then "0" else input))
    (fun z w => Methods_prices_ok w /\ 0 <= z) Methods_prices_ok.
Proof.
  intros Hvalid w HP. destruct (price_input_valid_round _ Hvalid) as (z & Hz & Hround).
  rewrite Hround. now split.
Qed.

Lemma Methods_send_message_ok update t kb :
  triple Methods_prices_ok (Methods.send_message update t kb)
    (fun _ w => Methods_prices_ok w) Methods_prices_ok.
Proof.
  intros w HP. unfold Methods_prices_ok in *.
  pose proof (Methods_send_message_frame update t kb w) as [Hn _].
  destruct (Methods.send_message update t kb w); cbn in Hn; now rewrite Hn.
Qed.

Lemma Methods_db_update_ok i c z :
  0 <= z ->
  triple Methods_prices_ok (Methods.db_update i c (VInt z))
    (fun _ w => Methods_prices_ok w) Methods_prices_ok.
Proof. intros Hz w HP. now apply prices_nonneg_update. Qed.

Lemma Methods_assign_ok NOTIFICATION n :
  triple Methods_prices_ok (Methods.assign NOTIFICATION n)
    (fun _ w => Methods_prices_ok w) Methods_prices_ok.
Proof. intros w HP. exact HP. Qed.

Lemma Methods_update_min_price_ok NOTIFICATION NOTIFICATION_ID update :
  price_input_valid (Methods.get_text update) = true ->
  triple Methods_prices_ok (Methods.update_min_price NOTIFICATION NOTIFICATION_ID update)
    (fun _ w => Methods_prices_ok w) Methods_prices_ok.
Proof.
  intros Hvalid. unfold Methods.update_min_price.
  eapply triple_bind; [apply Methods_get_notification_ok|]. intros n.
  eapply triple_bind; [now apply Methods_round_float_ok|].
  intros z. apply triple_assume. intros Hz.
  eapply triple_bind; [apply Methods_assign_ok|]. intros ?.
  eapply triple_bind; [now apply Methods_db_update_ok|]. intros ?.
  eapply triple_bind; [apply Methods_send_message_ok|]. intros ?.
  now apply triple_ret.
Qed.

Lemma Methods_update_max_price_ok NOTIFICATION NOTIFICATION_ID update :
  price_input_valid (Methods.get_text update) = true ->
  triple Methods_prices_ok (Methods.update_max_price NOTIFICATION NOTIFICATION_ID update)
    (fun _ w => Methods_prices_ok w) Methods_prices_ok.
Proof.
  intros Hvalid. unfold Methods.update_max_price.
  eapply triple_bind; [apply Methods_get_notification_ok|]. intros n.
  eapply triple_bind; [now apply Methods_round_float_ok|].
  intros z. apply triple_assume. intros Hz.
  eapply triple_bind; [apply Methods_assign_ok|]. intros ?.
  eapply triple_bind; [now apply Methods_db_update_ok|]. intros ?.
  eapply triple_bind; [apply Methods_send_message_ok|]. intros ?.
  now apply triple_ret.
Qed.

Lemma Methods_failed_ok update t (s : Methods.conversation) :
  triple Methods_prices_ok (bind (Methods.send_message update t None) (fun _ => ret s))
    (fun _ w => Methods_prices_ok w) Methods_prices_ok.
Proof.
  eapply triple_bind; [apply Methods_send_message_ok|]. intros ?. now apply triple_ret.
Qed.

Lemma Methods_price_turn_ok NOTIFICATION NOTIFICATION_ID current update :
  triple Methods_prices_ok (Methods_price_turn NOTIFICATION NOTIFICATION_ID current update)
    (fun _ w => Methods_prices_ok w) Methods_prices_ok.
Proof.
  unfold Methods_price_turn.
  destruct current; try (now apply triple_ret);
    destruct (price_input_valid (Methods.get_text update)) eqn:Hvalid;
    try apply Methods_failed_ok.
  - now apply Methods_update_min_price_ok.
  - now apply Methods_update_max_price_ok.
Qed.

(** An input that parses to a negative integer is not a valid price. *)
Lemma negative_price_invalid input x z :
  Py.float_of_string (Py.replace "," "." input) = Some x ->
  Py.round x = Py.RInt z -> z < 0 ->
  price_input_valid input = false.
Proof.
  intros Hx Hr Hz. unfold price_input_valid. rewrite Hx, Hr.
  destruct (String.eqb_spec input "/remove") as [->|_].
  - vm_compute in Hx. discriminate.
  - cbn. now apply Z.leb_gt.
Qed.

(** The handlers themselves do not look at the sign: handed the text "-5",
    [process_edit_max_price] stores -5. The invariant rests on the filter
    in front of them. *)
Remark process_edit_max_price_unfiltered :
  exists hw',
    Handlers.process_edit_max_price (sample_message "-5") Handlers.CurrentContext
      min_price_dialogue = Ok tt hw' /\
    NotificationModel.max_price <$> Handlers.notifications hw' !! 5 = Some (-5).
Proof. eexists. vm_compute. split; reflexivity. Qed.

(** C7. Non-negative price invariant. A text turn of a price dialogue
    keeps the prices of every stored notification non-negative, in both
    integrations: an accepted input rounds to a non-negative integer, which
    is what the handler stores, and an input that would round to a negative
    integer is not accepted: it is answered by the invalid-price reply, and
    the store, the state and the session stay as they are. *)
Theorem price_dialogue_nonneg
    (NOTIFICATION NOTIFICATION_ID : string) (current : Methods.conversation)
    (update : Methods.Update) (w : Methods.world)
    (m : Handlers.Message) (hw : Handlers.world) :
  prices_nonneg (Methods.notifications w) ->
  prices_nonneg (Handlers.notifications hw) ->
  prices_nonneg
    (Methods.notifications
       (world_of (Methods_price_turn NOTIFICATION NOTIFICATION_ID current update w))) /\
  prices_nonneg
    (Handlers.notifications (world_of (Handlers_price_turn m Handlers.CurrentContext hw))) /\
  (forall input,
      price_input_valid input = true ->
      exists z, 0 <= z /\
        forall W (w0 : W),
          round_float (if String.eqb input "/remove" then "0" else input) w0 = Ok z w0) /\
  (forall input x z,
      Py.float_of_string (Py.replace "," "." input) = Some x ->
      Py.round x = Py.RInt z -> z < 0 ->
      (Methods.get_text update = input ->
       Methods_price_turn NOTIFICATION NOTIFICATION_ID Methods.EDIT_MIN_PRICE update w
       = Methods.update_min_price_failed update w /\
       Methods_price_turn NOTIFICATION NOTIFICATION_ID Methods.EDIT_MAX_PRICE update w
       = Methods.update_max_price_failed update w /\
       Methods.notifications (world_of (Methods.update_min_price_failed update w))
       = Methods.notifications w /\
       Methods.notifications (world_of (Methods.update_max_price_failed update w))
       = Methods.notifications w) /\
      (Handlers.text m = Some input ->
       Handlers.state hw = Some Handlers.EDIT_MIN_PRICE \/
       Handlers.state hw = Some Handlers.EDIT_MAX_PRICE ->
       Handlers_price_turn m Handlers.CurrentContext hw
       = Handlers.invalid_price m Handlers.CurrentContext hw /\
       Handlers.notifications (world_of (Handlers.invalid_price m Handlers.CurrentContext hw))
       = Handlers.notifications hw /\
       Handlers.state (world_of (Handlers.invalid_price m Handlers.CurrentContext hw))
       = Handlers.state hw /\
       Handlers.data (world_of (Handlers.invalid_price m Handlers.CurrentContext hw))
       = Handlers.data hw)).
Proof.
  intros Hw Hhw. split; [|split; [|split]].
  - apply (triple_world_of Methods_prices_ok _ (fun _ w' => Methods_prices_ok w'));
      [apply Methods_price_turn_ok|auto|exact Hw].
  - apply (triple_world_of Handlers_prices_ok _ (fun _ w' => Handlers_prices_ok w'));
      [apply Handlers_price_turn_ok|auto|exact Hhw].
  - apply price_input_valid_round.
  - intros input x z Hx Hr Hz.
    pose proof (negative_price_invalid input x z Hx Hr Hz) as Hinvalid.
    split.
    + intros Ht. unfold Methods_price_turn. rewrite Ht, Hinvalid.
      repeat split.
      * unfold Methods.update_min_price_failed. rewrite world_of_bind_ret.
        apply Methods_send_message_frame.
      * unfold Methods.update_max_price_failed. rewrite world_of_bind_ret.
        apply Methods_send_message_frame.
    + intros Ht Hs. rewrite Handlers_invalid_price_eq. cbn [world_of]. fields.
      repeat split.
      unfold Handlers_price_turn, Handlers.get_state. run. rewrite Ht.
      destruct Hs as [Hs|Hs]; rewrite Hs, Hinvalid;
        rewrite Handlers_invalid_price_eq; now rewrite Hs.
Qed.

Lemma prices_nonneg_sample : prices_nonneg {[ 5 := sample_notification ]}.
Proof.
  intros i n Hl. apply lookup_singleton_Some in Hl as [<- <-]. cbn. lia.
Qed.

Lemma price_dialogue_nonneg_witness :
  prices_nonneg
    (Handlers.notifications
       (world_of (Handlers_price_turn (sample_message "7,4") Handlers.CurrentContext
                    min_price_dialogue))) /\
  Handlers_price_turn (sample_message "-5") Handlers.CurrentContext min_price_dialogue
  = Handlers.invalid_price (sample_message "-5") Handlers.CurrentContext min_price_dialogue.
Proof.
  split.
  - destruct (price_dialogue_nonneg "notification" "notification_id"
                Methods.EDIT_MIN_PRICE (text_update 7 "7,4") sample_methods_world
                (sample_message "7,4") min_price_dialogue
                prices_nonneg_sample prices_nonneg_sample) as (_ & H & _).
    exact H.
  - destruct (price_dialogue_nonneg "notification" "notification_id"
                Methods.EDIT_MIN_PRICE (text_update 7 "-5") sample_methods_world
                (sample_message "-5") min_price_dialogue
                prices_nonneg_sample prices_nonneg_sample) as (_ & _ & _ & H).
    odestruct (H "-5" _ (-5) _ _ _) as [_ H2];
      [vm_compute; reflexivity|vm_compute; reflexivity|lia|].
    destruct (H2 eq_refl (or_introl eq_refl)) as [H3 _]. exact H3.
Defined.

(** * Further properties of the code *)

(** ** What [get_callback_variable] returns *)

Lemma contains_take c n (t : string) :
  Py.contains c t = false -> Py.contains c (Py.take n t) = false.
Proof.
  revert n. induction t as [|x t IH]; intros [|n] Hc; try reflexivity.
  cbn [Py.contains Py.take] in *. apply orb_false_iff in Hc as [Hx Ht].
  rewrite Hx. now apply IH.
Qed.

Lemma find_char_None c (t : string) :
  Py.find (String c "") t = None -> Py.contains c t = false.
Proof.
  induction t as [|x t IH]; [reflexivity|].
  cbn [Py.find Py.startswith Py.contains].
  destruct (Ascii.eqb_spec c x) as [->|Hne]; [discriminate|].
  destruct (Py.find (String c "") t); [discriminate|]. intros _.
  rewrite IH by reflexivity. rewrite orb_false_r. apply Ascii.eqb_neq. congruence.
Qed.

Lemma find_char_Some c (t : string) i :
  Py.find (String c "") t = Some i -> Py.contains c (Py.take i t) = false.
Proof.
  revert i. induction t as [|x t IH]; intros i.
  - cbn. discriminate.
  - cbn [Py.find Py.startswith].
    destruct (Ascii.eqb_spec c x) as [->|Hne].
    + intros [= <-]. reflexivity.
    + destruct (Py.find (String c "") t) as [j|]; [|discriminate].
      intros [= <-]. cbn [Py.take Py.contains]. rewrite (IH j eq_refl).
      rewrite orb_false_r. apply Ascii.eqb_neq. congruence.
Qed.

(** X1. Whatever the update and the variable, the value
    [get_callback_variable] returns holds no pair delimiter: it ends at the
    first ['!'] after the pattern, or at the end of the token. *)
Theorem get_callback_variable_no_delimiter (update : Methods.Update) (variable : string) :
  Py.contains "!" (Methods.get_callback_variable update variable) = false.
Proof.
  unfold Methods.get_callback_variable.
  destruct (Methods.callback_query update) as [cq|]; [|reflexivity].
  destruct (Methods.data cq) as [cb_data|]; [|reflexivity].
  destruct (String.eqb cb_data ""); [reflexivity|].
  destruct (Py.find (VARIABLE_PATTERN variable "") cb_data) as [start|]; [|reflexivity].
  unfold Py.find_from, Py.slice.
  set (from := (start + String.length (VARIABLE_PATTERN variable ""))%nat).
  destruct (String.length cb_data <? from)%nat eqn:Hlen.
  - apply Nat.ltb_lt in Hlen.
    replace (String.length cb_data - from)%nat with O by lia. reflexivity.
  - change "!" with (String "!" "") at 1.
    destruct (Py.find (String "!" "") (Py.drop from cb_data)) as [i|] eqn:Hfind;
      cbn [fmap option_fmap option_map].
    + replace (from + i - from)%nat with i by lia. now apply find_char_Some.
    + apply contains_take. now apply find_char_None.
Qed.

Lemma find_at_start p (t : string) : Py.find p (p ++ t) = Some O.
Proof.
  pose proof (startswith_app p t) as H.
  destruct (p ++ t); cbn [Py.find]; now rewrite H.
Qed.

(** X2. A value that holds the pair delimiter is cut there: from a token
    whose action has no ['!'], the variable [k] encoded with the value
    [v ++ "!" ++ rest] reads back as [v] alone. *)
Theorem get_callback_variable_truncates
    (update : Methods.Update) (cq : Methods.CallbackQuery) (action k v rest : string) :
  Methods.callback_query update = Some cq ->
  Methods.data cq = Some (action ++ VARIABLE_PATTERN k (v ++ String "!" rest)) ->
  Py.contains "!" action = false ->
  Py.contains "!" v = false ->
  Methods.get_callback_variable update k = v.
Proof.
  intros Hcq Hdata Ha Hv.
  assert (Htok : action ++ VARIABLE_PATTERN k (v ++ String "!" rest)
                 = action ++ VARIABLE_PATTERN k "" ++ v ++ String "!" rest).
  { f_equal. rewrite !pattern_cons, app_cons. f_equal.
    rewrite app_assoc_s, app_cons. reflexivity. }
  apply (get_callback_variable_located update cq k action v (String "!" rest));
    try assumption.
  - now rewrite Hdata, Htok.
  - rewrite pattern_cons at 1. rewrite find_skip by assumption.
    rewrite <- pattern_cons, find_at_start. cbn. now rewrite Nat.add_0_r.
  - right. eauto.
Qed.

Lemma get_callback_variable_truncates_witness :
  Methods.get_callback_variable
    (callback_update 7 ("add" ++ VARIABLE_PATTERN "add_notification" "wow! tv"))
    "add_notification" = "wow".
Proof.
  eapply (get_callback_variable_truncates
            (callback_update 7 ("add" ++ VARIABLE_PATTERN "add_notification" "wow! tv"))
            _ "add" "add_notification" "wow" " tv"); reflexivity.
Defined.

(** ** An id that is no integer *)

(** X3. When the id variable of the token is not empty and not an integer
    literal, [Methods.get_notification] raises [ValueError] before it looks at
    the store or the session, whatever the session holds, and
    [show_notification] and [toggle_only_hot] raise it too: the world is
    left as it was (no read, no write, no reply). *)
Theorem get_notification_value_error
    (NOTIFICATION NOTIFICATION_ID : string) (update : Methods.Update)
    (w : Methods.world) (overwrite : bool) :
  Methods.get_callback_variable update NOTIFICATION_ID <> "" ->
  Py.int (Methods.get_callback_variable update NOTIFICATION_ID) = None ->
  Methods.get_notification NOTIFICATION NOTIFICATION_ID update w = Raise ValueError w /\
  Methods.show_notification NOTIFICATION NOTIFICATION_ID update overwrite w
  = Raise ValueError w /\
  Methods.toggle_only_hot NOTIFICATION NOTIFICATION_ID update w = Raise ValueError w.
Proof.
  intros Hne Hint.
  assert (H : Methods.get_notification NOTIFICATION NOTIFICATION_ID update w
              = Raise ValueError w).
  { unfold Methods.get_notification. apply String.eqb_neq in Hne.
    rewrite Hne, Hint. reflexivity. }
  split; [exact H|]. split.
  - unfold Methods.show_notification. unfold bind at 1. now rewrite H.
  - unfold Methods.toggle_only_hot. unfold bind at 1. now rewrite H.
Qed.

Lemma get_notification_value_error_witness :
  Methods.get_notification "notification" "notification_id"
    (callback_update 7 "show!notification_id=abc") stale_methods_world
  = Raise ValueError stale_methods_world.
Proof.
  assert (Hne : Methods.get_callback_variable
                  (callback_update 7 "show!notification_id=abc") "notification_id" <> "")
    by (vm_compute; discriminate).
  destruct (get_notification_value_error "notification" "notification_id"
              (callback_update 7 "show!notification_id=abc") stale_methods_world true
              Hne eq_refl) as [H _].
  exact H.
Defined.

(** ** The session of the python-telegram-bot integration *)

(** X4. The session behaves as a dictionary: a value that was set is read
    back under its key, other keys are not affected, after
    [clear_user_data] every key reads as absent, and clearing twice is
    clearing once. *)
Theorem user_data_laws
    (w : Methods.world) (d : gmap string Methods.udata)
    (key other : string) (value : Methods.udata) :
  Methods.user_data w = Some d ->
  key <> other ->
  (exists w',
      Methods.set_user_data key value w = Ok tt w' /\
      Methods.get_user_data key w' = Ok (Some value) w' /\
      Methods.get_user_data other w' = Ok (d !! other) w' /\
      Methods.notifications w' = Methods.notifications w /\
      Methods.trace w' = Methods.trace w) /\
  (exists w',
      Methods.clear_user_data w = Ok tt w' /\
      Methods.get_user_data key w' = Ok None w' /\
      Methods.clear_user_data w' = Ok tt w').
Proof.
  intros Hd Hne. split.
  - unfold Methods.set_user_data, Methods.get_user_data. rewrite Hd.
    eexists. split; [reflexivity|]. fields.
    rewrite lookup_insert_eq, lookup_insert_ne by assumption. repeat split.
  - unfold Methods.clear_user_data, Methods.get_user_data. run. rewrite Hd.
    eexists. split; [reflexivity|]. fields. rewrite lookup_empty. split; reflexivity.
Qed.

Lemma user_data_laws_witness :
  exists w',
    Methods.set_user_data "notification" (Methods.UNotification sample_notification)
      sample_methods_world = Ok tt w' /\
    Methods.get_user_data "notification" w'
    = Ok (Some (Methods.UNotification sample_notification)) w'.
Proof.
  odestruct (user_data_laws sample_methods_world ∅ "notification" "other"
               (Methods.UNotification sample_notification) _ _)
    as [(w' & H1 & H2 & _) _]; [reflexivity|discriminate|].
  exists w'. split; assumption.
Defined.

(** ** The table under the store operations *)

Lemma new_id_bound (db : gmap Z NotificationModel.t) :
  0 <= map_fold (fun k (_ : NotificationModel.t) acc => Z.max k acc) 0 db /\
  forall k n, db !! k = Some n ->
    k <= map_fold (fun k (_ : NotificationModel.t) acc => Z.max k acc) 0 db.
Proof.
  apply (map_fold_weak_ind
           (fun r (m : gmap Z NotificationModel.t) =>
              0 <= r /\ forall k n, m !! k = Some n -> k <= r)).
  - split; [lia|]. intros k n Hl. now rewrite lookup_empty in Hl.
  - intros i x m r Hi [Hr Hm]. split; [lia|].
    intros k n Hl. destruct (decide (i = k)) as [->|Hne]; [lia|].
    rewrite lookup_insert_ne in Hl by assumption. specialize (Hm k n Hl). lia.
Qed.

(** The id a new notification receives is not 0 and not in use. *)
Lemma new_id_fresh (db : gmap Z NotificationModel.t) :
  SQLiteNotifications.new_id db <> 0 /\ db !! SQLiteNotifications.new_id db = None.
Proof.
  unfold SQLiteNotifications.new_id. destruct (new_id_bound db) as [H0 Hk].
  split; [lia|].
  destruct (db !! (1 + _)) as [n|] eqn:Hl; [|reflexivity].
  specialize (Hk _ _ Hl). lia.
Qed.

Lemma upsert_model_new db n :
  NotificationModel.id n = 0 ->
  SQLiteNotifications.upsert_model db n
  = (<[SQLiteNotifications.new_id db
       := NotificationModel.set_id (SQLiteNotifications.new_id db) n]> db,
     SQLiteNotifications.new_id db).
Proof. intros H0. unfold SQLiteNotifications.upsert_model. now rewrite H0. Qed.

(** ** Adding a notification *)

(** X5. [Methods.add_notification] stores a new notification of the
    calling user under an id that is not 0 and was not in use, with the text
    of the message as its query (the callback variable when there is no
    text), leaves every other row as it was, and caches the new record in the
    session, so that a following turn without an id resolves it. *)
Theorem Methods_add_notification_creates
    (NOTIFICATION NOTIFICATION_ID ADD_NOTIFICATION_VARIABLE : string)
    (update next : Methods.Update) (w : Methods.world)
    (uid : Z) (d : gmap string Methods.udata) :
  Methods.effective_user update = Some uid ->
  Methods.user_data w = Some d ->
  Methods.get_callback_variable next NOTIFICATION_ID = "" ->
  let query := if String.eqb (Methods.get_text update) ""
               then Methods.get_callback_variable update ADD_NOTIFICATION_VARIABLE
               else Methods.get_text update in
  let i := SQLiteNotifications.new_id (Methods.notifications w) in
  exists w',
    Methods.add_notification NOTIFICATION ADD_NOTIFICATION_VARIABLE update w
    = Ok Methods.END_CONVERSATION w' /\
    i <> 0 /\ Methods.notifications w !! i = None /\
    Methods.notifications w' = <[i := added i uid query]> (Methods.notifications w) /\
    writes (Methods.trace w') = S (writes (Methods.trace w)) /\
    Methods.get_notification NOTIFICATION NOTIFICATION_ID next w'
    = Ok (added i uid query) w'.
Proof.
  intros Hu Hd Hnext query i.
  destruct (new_id_fresh (Methods.notifications w)) as [Hi0 Hfresh].
  unfold Methods.add_notification, Methods.send_message, Methods.get_user_id,
    Methods.db_upsert, Methods.set_user_data, Methods.emit.
  rewrite Hu. run. rewrite upsert_model_new by reflexivity. fields. rewrite Hd.
  fold query. fold i. fold (added i uid query).
  assert (Hres : forall tr,
             Methods.get_notification NOTIFICATION NOTIFICATION_ID next
               (Methods.mk (<[i := added i uid query]> (Methods.notifications w))
                  (Some (<[NOTIFICATION := Methods.UNotification (added i uid query)]> d)) tr)
             = Ok (added i uid query)
                 (Methods.mk (<[i := added i uid query]> (Methods.notifications w))
                    (Some (<[NOTIFICATION := Methods.UNotification (added i uid query)]> d))
                    tr)).
  { intros tr. rewrite (Methods_get_notification_session _ _ _ _ Hnext).
    unfold Methods_cached. fields. now rewrite lookup_insert_eq. }
  destruct (Methods.callback_query update) as [cq|]; [destruct (Methods.message_id cq)|];
    fields; eexists; (split; [reflexivity|]); fields;
    repeat split; try assumption; try apply Hres;
    rewrite !writes_app; cbn; lia.
Qed.

Lemma Methods_add_notification_creates_witness :
  exists w',
    Methods.add_notification "notification" "add_notification" (text_update 7 "tv 55")
      sample_methods_world = Ok Methods.END_CONVERSATION w' /\
    Methods.notifications w' !! 6 = Some (added 6 7 "tv 55").
Proof.
  odestruct (Methods_add_notification_creates "notification" "notification_id"
               "add_notification" (text_update 7 "tv 55") (text_update 7 "10")
               sample_methods_world 7 ∅ _ _ _) as (w' & H1 & _ & _ & H4 & _);
    try reflexivity.
  exists w'. split; [exact H1|]. rewrite H4. reflexivity.
Defined.

(** X6. [Handlers.process_add_notification] stores a new notification of
    the chat under an id that is not 0 and was not in use, with the text
    of the message as its query, leaves every other row as it was, writes to
    the store once, and finishes the dialogue. *)
Theorem Handlers_process_add_notification_creates
    (m : Handlers.Message) (hw : Handlers.world) (query : string) :
  Handlers.text m = Some query ->
  let i := SQLiteNotifications.new_id (Handlers.notifications hw) in
  let n := added i (chat_id (Handlers.chat m)) query in
  i <> 0 /\ Handlers.notifications hw !! i = None /\
  Handlers.process_add_notification m Handlers.CurrentContext hw
  = Ok tt (Handlers.mk (<[i := n]> (Handlers.notifications hw)) (Handlers.users hw)
             None ∅
             (Handlers.trace hw
              ++ [DbUpsertNotification (added 0 (chat_id (Handlers.chat m)) query);
                  reply_event m (notification_added n)
                    (Some (kb_notification_commands n))])).
Proof.
  intros Ht i n.
  destruct (new_id_fresh (Handlers.notifications hw)) as [Hi0 Hfresh].
  split; [assumption|]. split; [assumption|].
  unfold Handlers.process_add_notification, Handlers.query_text,
    Handlers.save_notification, Handlers.db_upsert, Handlers.finish.
  rewrite Ht. run. rewrite upsert_model_new by reflexivity. fields.
  rewrite overwrite_or_answer_eq. fields. rewrite <- !app_assoc. reflexivity.
Qed.

Lemma Handlers_process_add_notification_creates_witness :
  exists hw',
    Handlers.process_add_notification (sample_message "tv 55") Handlers.CurrentContext
      min_price_dialogue = Ok tt hw' /\
    Handlers.notifications hw' !! 6 = Some (added 6 7 "tv 55") /\
    Handlers.state hw' = None.
Proof.
  destruct (Handlers_process_add_notification_creates (sample_message "tv 55")
              min_price_dialogue "tv 55" eq_refl) as (_ & _ & H).
  eexists. split; [exact H|]. split; reflexivity.
Defined.

(** ** Editing the query *)

(** X7. [Handlers.process_edit_query] stores the text as the query of the
    notification the dialogue is pinned to, with one store write, and, unlike
    the price handlers, does not finish the dialogue: the state and the data
    stay, and the next text turn resolves the same notification again. *)
Theorem process_edit_query_keeps_dialogue
    (m : Handlers.Message) (hw : Handlers.world) (query : string)
    (v : pyval) (M : Z) (n : NotificationModel.t) :
  Handlers.text m = Some query ->
  table_wf (Handlers.notifications hw) ->
  Handlers.data hw !! "notification_id" = Some v ->
  SQLiteNotifications.key v = Some M ->
  Handlers.notifications hw !! M = Some n ->
  exists hw',
    Handlers.process_edit_query m Handlers.CurrentContext hw = Ok tt hw' /\
    Handlers.notifications hw'
    = <[M := NotificationModel.set_query query n]> (Handlers.notifications hw) /\
    Handlers.state hw' = Handlers.state hw /\
    Handlers.data hw' = Handlers.data hw /\
    writes (Handlers.trace hw') = S (writes (Handlers.trace hw)) /\
    outcome (Handlers.get_notification (inr Handlers.CurrentContext) hw')
    = inl (NotificationModel.set_query query n).
Proof.
  intros Ht Hwf Hv Hk Hn.
  destruct (table_wf_lookup _ _ _ Hwf Hn) as [Hid HM].
  unfold Handlers.process_edit_query. unfold bind at 1.
  rewrite Handlers_get_notification_eq. cbn zeta.
  rewrite (Handlers_lookup_Some _ _ _ _ _ Hv Hk Hn).
  unfold Handlers.query_text, Handlers.db_upsert. rewrite Ht. run.
  rewrite upsert_model_saved by (cbn; congruence).
  change (NotificationModel.id (NotificationModel.set_query query n))
    with (NotificationModel.id n). rewrite Hid.
  rewrite overwrite_or_answer_eq. fields.
  eexists. split; [reflexivity|]. fields. repeat split.
  - rewrite !writes_app. unfold reply_event.
    destruct (Handlers.can_edit m); cbn; lia.
  - rewrite Handlers_get_notification_eq. cbn zeta. fields.
    erewrite Handlers_lookup_Some; [reflexivity|exact Hv|exact Hk|apply lookup_insert_eq].
Qed.

Lemma process_edit_query_keeps_dialogue_witness :
  exists hw',
    Handlers.process_edit_query (sample_message "oled tv") Handlers.CurrentContext
      min_price_dialogue = Ok tt hw' /\
    Handlers.state hw' = Some Handlers.EDIT_MIN_PRICE /\
    Handlers.notifications hw' !! 5
    = Some (NotificationModel.set_query "oled tv" sample_notification).
Proof.
  odestruct (process_edit_query_keeps_dialogue (sample_message "oled tv")
               min_price_dialogue "oled tv" (VStr "5") 5 sample_notification
               _ table_wf_sample _ _ _) as (hw' & H1 & H2 & H3 & _); try reflexivity.
  exists hw'. split; [exact H1|]. split; [exact H3|]. rewrite H2. reflexivity.
Defined.

(** ** Deleting a notification *)

(** X8. [Handlers.delete_notification] on a callback that names a stored
    notification removes exactly that row with one store write and leaves
    the dialogue (state and data) as it was; invoked again with the same
    callback it raises [NotificationNotFoundError] and writes nothing. *)
Theorem Handlers_delete_notification_once
    (q : Handlers.CallbackQuery) (callback_data : gmap string pyval)
    (hw : Handlers.world) (v : pyval) (N : Z) (n : NotificationModel.t) :
  table_wf (Handlers.notifications hw) ->
  callback_data !! "notification_id" = Some v ->
  SQLiteNotifications.key v = Some N ->
  Handlers.notifications hw !! N = Some n ->
  exists hw1 hw2,
    Handlers.delete_notification q callback_data hw = Ok tt hw1 /\
    Handlers.notifications hw1 = delete N (Handlers.notifications hw) /\
    Handlers.state hw1 = Handlers.state hw /\
    Handlers.data hw1 = Handlers.data hw /\
    writes (Handlers.trace hw1) = S (writes (Handlers.trace hw)) /\
    Handlers.delete_notification q callback_data hw1
    = Raise NotificationNotFoundError hw2 /\
    Handlers.notifications hw2 = Handlers.notifications hw1 /\
    writes (Handlers.trace hw2) = writes (Handlers.trace hw1).
Proof.
  intros Hwf Hv Hk Hn.
  destruct (table_wf_lookup _ _ _ Hwf Hn) as [Hid HN].
  assert (H1 : Handlers.delete_notification q callback_data hw
               = Ok tt (Handlers.mk (delete N (Handlers.notifications hw))
                          (Handlers.users hw) (Handlers.state hw) (Handlers.data hw)
                          (Handlers.trace hw
                           ++ [DbGetNotification v; DbDeleteNotification N;
                               reply_event (Handlers.message q)
                                 (notification_deleted n) None]))).
  { unfold Handlers.delete_notification. unfold bind at 1.
    rewrite Handlers_get_notification_eq. cbn zeta.
    rewrite (Handlers_lookup_Some _ _ _ _ _ Hv Hk Hn), Hv. cbn [default from_option id].
    unfold Handlers.db_delete, SQLiteNotifications.delete_by_id. run.
    rewrite overwrite_or_answer_eq. fields. rewrite Hid, <- !app_assoc. reflexivity. }
  rewrite H1. eexists _, _. split; [reflexivity|]. fields.
  unfold Handlers.delete_notification. unfold bind at 1.
  rewrite Handlers_get_notification_eq. cbn zeta. fields.
  assert (Hgone : Handlers_lookup
                    (Handlers.mk (delete N (Handlers.notifications hw))
                       (Handlers.users hw) (Handlers.state hw) (Handlers.data hw)
                       (Handlers.trace hw
                        ++ [DbGetNotification v; DbDeleteNotification N;
                            reply_event (Handlers.message q)
                              (notification_deleted n) None]))
                    (callback_data !! "notification_id") = None).
  { unfold Handlers_lookup. rewrite Hv. cbn [default from_option id]. rewrite Hk.
    fields. apply lookup_delete_eq. }
  rewrite Hgone. repeat split.
  - rewrite !writes_app. unfold reply_event.
    destruct (Handlers.can_edit (Handlers.message q)); cbn; lia.
  - fields. rewrite !writes_app. cbn. lia.
Qed.

Lemma Handlers_delete_notification_once_witness :
  exists hw1,
    Handlers.delete_notification sample_query sample_callback_data sample_handlers_world
    = Ok tt hw1 /\
    Handlers.notifications hw1 !! 5 = None /\
    outcome (Handlers.delete_notification sample_query sample_callback_data hw1)
    = inr NotificationNotFoundError.
Proof.
  odestruct (Handlers_delete_notification_once sample_query sample_callback_data
               sample_handlers_world (VStr "5") 5 sample_notification
               table_wf_sample _ _ _)
    as (hw1 & hw2 & H1 & H2 & _ & _ & _ & H6 & _); try reflexivity.
  exists hw1. split; [exact H1|]. split.
  - rewrite H2. reflexivity.
  - now rewrite H6.
Defined.

(** ** Cancel with a target *)

(** X9. [Handlers.cancel] in an active dialogue whose pinned notification
    still resolves reads the store once, replies with the overview of the
    stored record, writes nothing to the store, and ends with the state
    reset and the session empty. *)
Theorem cancel_resolvable_target
    (m : Handlers.Message) (hw : Handlers.world) (s : Handlers.States)
    (v : pyval) (M : Z) (n : NotificationModel.t) :
  Handlers.state hw = Some s ->
  Handlers.data hw !! "notification_id" = Some v ->
  SQLiteNotifications.key v = Some M ->
  Handlers.notifications hw !! M = Some n ->
  Handlers.cancel m Handlers.CurrentContext hw
  = Ok tt (Handlers.mk (Handlers.notifications hw) (Handlers.users hw) None ∅
             (Handlers.trace hw
              ++ [DbGetNotification v;
                  reply_event m (notification_overview n)
                    (Some (kb_notification_commands n))])).
Proof.
  intros Hs Hv Hk Hn.
  unfold Handlers.cancel. unfold Handlers.get_state at 1. run. rewrite Hs.
  rewrite Handlers_get_notification_eq. cbn zeta.
  rewrite (Handlers_lookup_Some _ _ _ _ _ Hv Hk Hn), Hv. cbn [default from_option id].
  rewrite overwrite_or_answer_eq. fields.
  unfold Handlers.finish_state, Handlers.get_state, Handlers.finish. run.
  rewrite Hs, <- !app_assoc. reflexivity.
Qed.

Lemma cancel_resolvable_target_witness :
  exists hw',
    Handlers.cancel (sample_message "/cancel") Handlers.CurrentContext min_price_dialogue
    = Ok tt hw' /\
    Handlers.state hw' = None /\ Handlers.data hw' = ∅ /\
    writes (Handlers.trace hw') = O.
Proof.
  opose proof (cancel_resolvable_target (sample_message "/cancel") min_price_dialogue
                 Handlers.EDIT_MIN_PRICE (VStr "5") 5 sample_notification _ _ _ _) as H;
    try reflexivity.
  eexists. split; [exact H|]. repeat split.
Defined.

(** ** Start *)

Lemma parse_telegram_chat_id self c :
  UserModel.id (parse_telegram_chat self c) = chat_id c.
Proof. reflexivity. Qed.

Lemma Handlers_start_known m (w : Handlers.world) u :
  Handlers.users w !! chat_id (Handlers.chat m) = Some u ->
  Handlers.start m w
  = Ok tt (Handlers.mk (Handlers.notifications w) (Handlers.users w) (Handlers.state w)
             (Handlers.data w)
             (Handlers.trace w
              ++ [DbGetUser (chat_id (Handlers.chat m));
                  DbGetNotificationsByUser (UserModel.id u);
                  reply_event m (start_user u)
                    (Some (kb_start (SQLiteNotifications.get_by_user_id
                                       (Handlers.notifications w) (UserModel.id u))))])).
Proof.
  intros Hu. unfold Handlers.start, Handlers.get_user, Handlers.user_get,
    Handlers.db_get_by_user_id, SQLiteUser.get_by_id. run.
  cbn [Handlers.get_user_id]. rewrite Hu. rewrite overwrite_or_answer_eq. fields.
  rewrite <- !app_assoc. reflexivity.
Qed.

Lemma Handlers_start_unknown m (w : Handlers.world) :
  Handlers.users w !! chat_id (Handlers.chat m) = None ->
  let u := parse_telegram_chat UserModel.init (Handlers.chat m) in
  Handlers.start m w
  = Ok tt (Handlers.mk (Handlers.notifications w)
             (<[chat_id (Handlers.chat m) := u]> (Handlers.users w)) (Handlers.state w)
             (Handlers.data w)
             (Handlers.trace w
              ++ [DbGetUser (chat_id (Handlers.chat m)); DbUpsertUser u;
                  DbGetNotificationsByUser (chat_id (Handlers.chat m));
                  reply_event m (start_user u)
                    (Some (kb_start (SQLiteNotifications.get_by_user_id
                                       (Handlers.notifications w)
                                       (chat_id (Handlers.chat m)))))])).
Proof.
  intros Hu u. unfold Handlers.start, Handlers.get_user, Handlers.user_get,
    Handlers.user_upsert, Handlers.db_get_by_user_id, SQLiteUser.get_by_id,
    SQLiteUser.upsert_model. run.
  cbn [Handlers.get_user_id]. rewrite Hu. cbn [Handlers.is_user_not_found].
  rewrite overwrite_or_answer_eq. fields.
  rewrite <- !app_assoc. reflexivity.
Qed.

(** X10. [Handlers.start] registers a chat once: for a chat the store
    does not know it writes the user parsed from the chat, keyed by the chat
    id; a second [start] finds that user and writes nothing. It never raises
    and never touches the notifications or the dialogue. *)
Theorem Handlers_start_registers_once (m : Handlers.Message) (hw : Handlers.world) :
  exists hw1 hw2 u,
    Handlers.start m hw = Ok tt hw1 /\
    Handlers.users hw1 !! chat_id (Handlers.chat m) = Some u /\
    (Handlers.users hw !! chat_id (Handlers.chat m) = None ->
     u = parse_telegram_chat UserModel.init (Handlers.chat m) /\
     writes (Handlers.trace hw1) = S (writes (Handlers.trace hw))) /\
    Handlers.start m hw1 = Ok tt hw2 /\
    Handlers.users hw2 = Handlers.users hw1 /\
    writes (Handlers.trace hw2) = writes (Handlers.trace hw1) /\
    Handlers.notifications hw2 = Handlers.notifications hw /\
    Handlers.state hw2 = Handlers.state hw /\
    Handlers.data hw2 = Handlers.data hw.
Proof.
  assert (Hrw : forall kb t, is_write (reply_event m t kb) = false).
  { intros kb t. unfold reply_event. now destruct (Handlers.can_edit m). }
  destruct (Handlers.users hw !! chat_id (Handlers.chat m)) as [u|] eqn:Hu.
  - rewrite (Handlers_start_known m hw u Hu).
    eexists _, _, u. split; [reflexivity|]. fields. split; [exact Hu|].
    split; [discriminate|].
    rewrite (Handlers_start_known m _ u) by (fields; exact Hu). fields.
    split; [reflexivity|]. repeat split.
    fields. rewrite !writes_app. cbn [writes is_write]. rewrite !Hrw. cbn. lia.
  - rewrite (Handlers_start_unknown m hw Hu). cbn zeta.
    eexists _, _, _. split; [reflexivity|]. fields.
    split; [apply lookup_insert_eq|]. split.
    + intros _. split; [reflexivity|].
      fields. rewrite !writes_app. cbn [writes is_write]. rewrite !Hrw. cbn. lia.
    + erewrite Handlers_start_known by (fields; apply lookup_insert_eq). fields.
      split; [reflexivity|]. repeat split.
      fields. rewrite !writes_app. cbn [writes is_write]. rewrite !Hrw. cbn. lia.
Qed.

(** X11. [Handlers.start_over] never raises and always ends with no
    dialogue state. The data of the session are cleared when a state was set;
    with no state they are left as they are ([__finish_state] only finishes
    a dialogue that has a state). *)
Theorem start_over_resets
    (telegram_object : Handlers.Message + Handlers.CallbackQuery) (hw : Handlers.world) :
  exists hw',
    Handlers.start_over telegram_object Handlers.CurrentContext hw = Ok tt hw' /\
    Handlers.state hw' = None /\
    Handlers.data hw'
    = match Handlers.state hw with
      | Some _ => ∅
      | None => Handlers.data hw
      end /\
    Handlers.notifications hw' = Handlers.notifications hw.
Proof.
  unfold Handlers.start_over, Handlers.finish_state, Handlers.get_state,
    Handlers.finish. run.
  destruct (Handlers.state hw) as [s|] eqn:Hs.
  - destruct (Handlers_start_total (Handlers.message_of telegram_object)
                (Handlers.mk (Handlers.notifications hw) (Handlers.users hw) None ∅
                   (Handlers.trace hw))) as (hw' & H & Hst & Hd & Hn).
    exists hw'. rewrite H. repeat split; assumption.
  - destruct (Handlers_start_total (Handlers.message_of telegram_object) hw)
      as (hw' & H & Hst & Hd & Hn).
    exists hw'. rewrite H. repeat split; try assumption. now rewrite Hst.
Qed.

Lemma Handlers_start_registers_once_witness :
  exists hw1,
    Handlers.start (sample_message "/start") sample_handlers_world = Ok tt hw1 /\
    Handlers.users hw1 !! 7 = Some (parse_telegram_chat UserModel.init sample_chat) /\
    writes (Handlers.trace hw1) = 1%nat.
Proof.
  destruct (Handlers_start_registers_once (sample_message "/start") sample_handlers_world)
    as (hw1 & hw2 & u & H1 & H2 & H3 & _).
  destruct (H3 eq_refl) as [-> H4].
  exists hw1. split; [exact H1|]. split; [exact H2|]. rewrite H4. reflexivity.
Defined.

(** ** A target that does not resolve *)

(** X12. When the notification a handler of the aiogram integration is to
    work on does not resolve, the handler raises
    [NotificationNotFoundError] right after the one store read: nothing is
    written, no reply is sent, and the store, the state and the session
    are as before. This holds for the callback handlers
    ([show_notification], [toggle_only_hot], [delete_notification]) and for
    the text handlers of the dialogues ([process_edit_min_price],
    [process_edit_max_price], [process_edit_query]). *)
Theorem missing_target_raises_before_effects
    (q : Handlers.CallbackQuery) (callback_data : gmap string pyval)
    (m : Handlers.Message) (hw : Handlers.world) :
  Handlers_lookup hw (callback_data !! "notification_id") = None ->
  Handlers_lookup hw (Handlers.data hw !! "notification_id") = None ->
  Handlers.show_notification q callback_data hw
  = Raise NotificationNotFoundError (after_callback_lookup callback_data hw) /\
  Handlers.toggle_only_hot q callback_data hw
  = Raise NotificationNotFoundError (after_callback_lookup callback_data hw) /\
  Handlers.delete_notification q callback_data hw
  = Raise NotificationNotFoundError (after_callback_lookup callback_data hw) /\
  Handlers.process_edit_min_price m Handlers.CurrentContext hw
  = Raise NotificationNotFoundError (after_lookup hw) /\
  Handlers.process_edit_max_price m Handlers.CurrentContext hw
  = Raise NotificationNotFoundError (after_lookup hw) /\
  Handlers.process_edit_query m Handlers.CurrentContext hw
  = Raise NotificationNotFoundError (after_lookup hw).
Proof.
  intros Hcd Hdata.
  assert (H1 : Handlers.get_notification (inl callback_data) hw
               = Raise NotificationNotFoundError (after_callback_lookup callback_data hw)).
  { rewrite Handlers_get_notification_eq. cbn zeta. now rewrite Hcd. }
  assert (H2 : Handlers.get_notification (inr Handlers.CurrentContext) hw
               = Raise NotificationNotFoundError (after_lookup hw)).
  { rewrite Handlers_get_notification_eq. cbn zeta. now rewrite Hdata. }
  repeat split.
  - unfold Handlers.show_notification. unfold bind at 1. now rewrite H1.
  - unfold Handlers.toggle_only_hot. unfold bind at 1. now rewrite H1.
  - unfold Handlers.delete_notification. unfold bind at 1. now rewrite H1.
  - unfold Handlers.process_edit_min_price. unfold bind at 1. now rewrite H2.
  - unfold Handlers.process_edit_max_price. unfold bind at 1. now rewrite H2.
  - unfold Handlers.process_edit_query. unfold bind at 1. now rewrite H2.
Qed.

Lemma missing_target_raises_before_effects_witness :
  Handlers.toggle_only_hot sample_query sample_callback_data orphaned_dialogue
  = Raise NotificationNotFoundError
      (after_callback_lookup sample_callback_data orphaned_dialogue) /\
  writes (Handlers.trace (after_callback_lookup sample_callback_data orphaned_dialogue))
  = O.
Proof.
  odestruct (missing_target_raises_before_effects sample_query sample_callback_data
               (sample_message "10") orphaned_dialogue _ _) as (_ & H & _);
    try reflexivity.
  split; [exact H|reflexivity].
Defined.

(** ** An update without a user *)

(** X13. In [Methods.update_min_price] the store write precedes the reply:
    for an update that has a text and a cached target but no effective user,
    the minimum price is written to the store (and to the cached record), and
    then [send_message] raises the missing-user exception, so the handler
    does not return a state. *)
Theorem update_min_price_without_user
    (NOTIFICATION NOTIFICATION_ID : string) (update : Methods.Update)
    (w : Methods.world) (input : string) (z : Z)
    (d : gmap string Methods.udata) (n : NotificationModel.t) :
  Methods.message update = Some (Some input) ->
  Methods.callback_query update = None ->
  Methods.effective_user update = None ->
  (forall w0 : Methods.world,
      round_float (if String.eqb input "/remove" then "0" else input) w0 = Ok z w0) ->
  Methods.user_data w = Some d ->
  d !! NOTIFICATION = Some (Methods.UNotification n) ->
  Methods.update_min_price NOTIFICATION NOTIFICATION_ID update w
  = Raise (Exception "User is missing for update")
      (Methods.mk
         (alter (NotificationModel.set_min_price z) (NotificationModel.id n)
            (Methods.notifications w))
         (Some (<[NOTIFICATION := Methods.UNotification (NotificationModel.set_min_price z n)]> d))
         (Methods.trace w
          ++ [DbUpdateNotification (NotificationModel.id n) MIN_PRICE (VInt z)])).
Proof.
  intros Hm Hcq Hu Hz Hd Hn.
  assert (Hs : Methods.get_callback_variable update NOTIFICATION_ID = "")
    by (unfold Methods.get_callback_variable; now rewrite Hcq).
  unfold Methods.update_min_price. unfold bind at 1.
  rewrite (Methods_get_notification_session _ _ _ _ Hs).
  rewrite (Methods_cached_Some _ _ _ _ Hd Hn).
  unfold Methods.get_text. rewrite Hm. unfold bind at 1. rewrite Hz.
  unfold Methods.assign, Methods.db_update, Methods.send_message, Methods.get_user_id.
  rewrite Hu. run. rewrite Hd. reflexivity.
Qed.

Lemma update_min_price_without_user_witness :
  exists w',
    Methods.update_min_price "notification" "notification_id"
      {| Methods.effective_user := None; Methods.message := Some (Some "12,50");
         Methods.callback_query := None |}
      (Methods.mk {[ 5 := sample_notification ]}
         (Some {[ "notification" := Methods.UNotification sample_notification ]}) [])
    = Raise (Exception "User is missing for update") w' /\
    NotificationModel.min_price <$> Methods.notifications w' !! 5 = Some 12.
Proof.
  opose proof (update_min_price_without_user "notification" "notification_id"
                 {| Methods.effective_user := None; Methods.message := Some (Some "12,50");
                    Methods.callback_query := None |}
                 (Methods.mk {[ 5 := sample_notification ]}
                    (Some {[ "notification" := Methods.UNotification sample_notification ]})
                    [])
                 "12,50" 12 _ sample_notification _ _ _ _ _ _) as H; try reflexivity.
  eexists. split; [exact H|]. reflexivity.
Defined.

(** ** The order of notifications *)


Lemma Py_lt_irrefl a : Py.lt a a = false.
Proof.
  induction a as [|x a IH]; [reflexivity|].
  cbn [Py.lt]. rewrite Nat.ltb_irrefl, Ascii.eqb_refl. exact IH.
Qed.

Lemma Py_lt_trans a b c : Py.lt a b = true -> Py.lt b c = true -> Py.lt a c = true.
Proof.
  revert b c. induction a as [|x a IH]; intros [|y b] [|z c]; cbn [Py.lt];
    try discriminate; try reflexivity.
  destruct (Nat.ltb_spec (nat_of_ascii x) (nat_of_ascii y)) as [Hxy|Hxy].
  - intros _.
    destruct (Nat.ltb_spec (nat_of_ascii y) (nat_of_ascii z)) as [Hyz|Hyz].
    + intros _.
      now replace (nat_of_ascii x <? nat_of_ascii z)%nat with true
        by (symmetry; apply Nat.ltb_lt; lia).
    + destruct (Ascii.eqb_spec y z) as [<-|Hne]; [|discriminate]. intros _.
      now replace (nat_of_ascii x <? nat_of_ascii y)%nat with true
        by (symmetry; apply Nat.ltb_lt; lia).
  - destruct (Ascii.eqb_spec x y) as [<-|Hne]; [|discriminate]. intros Hab.
    destruct (Nat.ltb_spec (nat_of_ascii x) (nat_of_ascii z)) as [Hxz|Hxz];
      [reflexivity|].
    destruct (Ascii.eqb_spec x z) as [<-|Hne]; [|discriminate]. intros Hbc.
    now apply (IH b c).
Qed.

Lemma Py_lt_asym a b : Py.lt a b = true -> Py.lt b a = false.
Proof.
  intros H. destruct (Py.lt b a) eqn:Hba; [|reflexivity].
  pose proof (Py_lt_trans _ _ _ H Hba) as Haa. now rewrite Py_lt_irrefl in Haa.
Qed.


(** X14. [NotificationModel.__lt__] is a strict order: when [a < b] and
    [b < c] then [a < c], [b < a] does not hold, and no notification is
    below itself. *)
Theorem notification_order_strict (a b c : NotificationModel.t) :
  NotificationModel.lt a b = true ->
  NotificationModel.lt b c = true ->
  NotificationModel.lt a c = true /\
  NotificationModel.lt b a = false /\
  NotificationModel.lt a a = false.
Proof.
  unfold NotificationModel.lt. intros Hab Hbc. split; [|split].
  - exact (Py_lt_trans _ _ _ Hab Hbc).
  - now apply Py_lt_asym.
  - apply Py_lt_irrefl.
Qed.

Lemma notification_order_strict_witness :
  NotificationModel.lt (NotificationModel.set_query "Apple" sample_notification)
    (NotificationModel.set_query "tv" sample_notification) = true /\
  NotificationModel.lt (NotificationModel.set_query "Apple" sample_notification)
    (NotificationModel.set_query "Zelda" sample_notification) = true.
Proof.
  split; [reflexivity|].
  destruct (notification_order_strict
              (NotificationModel.set_query "Apple" sample_notification)
              (NotificationModel.set_query "tv" sample_notification)
              (NotificationModel.set_query "Zelda" sample_notification)
              eq_refl eq_refl) as [H _].
  exact H.
Defined.


(** ** Integer price inputs *)

Lemma replace_absent a b (s : string) :
  Py.contains a s = false -> Py.replace a b s = s.
Proof.
  induction s as [|c s IH]; [reflexivity|].
  cbn [Py.contains Py.replace]. intros H. apply orb_false_iff in H as [Hc Hs].
  rewrite Hc. now rewrite IH.
Qed.

Lemma digit_of_range c d : Py.digit_of c = Some d -> 0 <= d <= 9.
Proof.
  unfold Py.digit_of.
  destruct ((48 <=? Py.code c) && (Py.code c <=? 57)) eqn:H; [|discriminate].
  apply andb_true_iff in H as [H1 H2]. apply Z.leb_le in H1, H2.
  intros [= <-]. lia.
Qed.

(** The value [digits_rest] accumulates does not go below a non-negative
    start. *)
Lemma digits_rest_nonneg (s : string) :
  (forall acc cnt, 0 <= acc -> 0 <= fst (fst (Py.digits_rest acc cnt s))) /\
  (forall c acc cnt, 0 <= acc -> 0 <= fst (fst (Py.digits_rest acc cnt (String c s)))).
Proof.
  induction s as [|c' s [IH1 IH2]].
  - split.
    + intros acc cnt Hacc. exact Hacc.
    + intros c acc cnt Hacc. cbn [Py.digits_rest].
      destruct (Py.digit_of c) as [d|] eqn:Hd.
      * apply digit_of_range in Hd. cbn. lia.
      * destruct (Ascii.eqb c "_"); exact Hacc.
  - split.
    + intros acc cnt Hacc. now apply IH2.
    + intros c acc cnt Hacc. cbn [Py.digits_rest].
      destruct (Py.digit_of c) as [d|] eqn:Hd.
      * apply digit_of_range in Hd. apply IH2. lia.
      * destruct (Ascii.eqb c "_"); [|exact Hacc].
        destruct (Py.digit_of c') as [d'|] eqn:Hd'; [|exact Hacc].
        apply digit_of_range in Hd'. apply IH1. lia.
Qed.

Lemma digitpart_nonneg body u cnt rest :
  Py.digitpart 0 body = Some (u, cnt, rest) -> 0 <= u.
Proof.
  unfold Py.digitpart. destruct body as [|c s]; [discriminate|].
  destruct (Py.digit_of c) as [d|] eqn:Hd; [|discriminate].
  apply digit_of_range in Hd. intros [= H].
  destruct (digits_rest_nonneg s) as [H1 _].
  specialize (H1 (10 * 0 + d) 1 ltac:(lia)). rewrite H in H1. exact H1.
Qed.

(** A string that starts with a digit is none of the special spellings. *)
Lemma digit_not_special body r :
  Py.digitpart 0 body = Some r ->
  (String.eqb (Py.tolower_all body) "inf" || String.eqb (Py.tolower_all body) "infinity")%bool
  = false /\
  String.eqb (Py.tolower_all body) "nan" = false.
Proof.
  unfold Py.digitpart. destruct body as [|c s]; [discriminate|].
  destruct (Py.digit_of c) as [d|] eqn:Hd; [|discriminate]. intros _.
  cbn [Py.tolower_all String.eqb].
  assert (Hi : Ascii.eqb (Py.tolower c) "i" = false /\ Ascii.eqb (Py.tolower c) "n" = false).
  { destruct c as [[] [] [] [] [] [] [] []]; vm_compute in Hd; try discriminate;
      vm_compute; split; reflexivity. }
  destruct Hi as [Hi Hn]. now rewrite Hi, Hn.
Qed.

Lemma round_half_even_exact a q : 0 < q -> Py.round_half_even (a * q) q = a.
Proof.
  intros Hq. unfold Py.round_half_even.
  rewrite Z.div_mul, Z.mod_mul by lia.
  destruct (Z.ltb_spec (2 * 0) q); [reflexivity|lia].
Qed.

(** An integer below 2^53 is a binary64, and [round] gives it back. *)
Lemma round_binary64_integer neg u :
  0 <= u < 2 ^ 53 ->
  Py.round (Py.binary64 neg (u * 10 ^ 0) 1) = Py.RInt (if neg then - u else u).
Proof.
  intros [Hu0 Hu]. rewrite Z.pow_0_r, Z.mul_1_r. unfold Py.binary64.
  destruct (Z.eqb_spec u 0) as [->|Hne].
  - cbn. now destruct neg.
  - assert (Hpos : 0 < u) by lia.
    pose proof (Z.log2_spec u Hpos) as [Hlo Hhi].
    pose proof (Z.log2_nonneg u) as HL0.
    assert (HL : Z.log2 u < 53) by (apply Z.log2_lt_pow2; lia).
    change (Z.log2 1) with 0.
    set (L := Z.log2 u) in *.
    replace (L - 0 - 52) with (L - 52) by lia.
    destruct (Z.leb_spec 0 (L - 52)) as [Hge|Hlt].
    + assert (L = 52) as HL52 by lia. rewrite HL52 in *.
      change (52 - 52) with 0. rewrite Z.pow_0_r, Z.mul_1_r, Z.div_1_r.
      destruct (Z.ltb_spec u (2 ^ 52)) as [Hc|Hc]; [lia|].
      change (Z.max 0 (-1074)) with 0. unfold Py.scaled.
      change (0 <=? 0) with true. cbn beta iota.
      rewrite Z.pow_0_r, Z.mul_1_r.
      pose proof (round_half_even_exact u 1 ltac:(lia)) as Hr.
      rewrite Z.mul_1_r in Hr. rewrite Hr.
      change (971 <? 0) with false. change (0 =? 971) with false. cbn [andb].
      cbn [Py.round]. change (0 <=? 0) with true. cbn beta iota.
      now rewrite Z.pow_0_r, Z.mul_1_r.
    + set (k := - (L - 52)).
      assert (Hk : 0 < k) by (unfold k; lia).
      assert (Hpow : 2 ^ 52 = 2 ^ L * 2 ^ k).
      { rewrite <- Z.pow_add_r by lia. f_equal. unfold k. lia. }
      assert (H2k : 0 < 2 ^ k) by (apply Z.pow_pos_nonneg; lia).
      rewrite Z.div_1_r.
      destruct (Z.ltb_spec (u * 2 ^ k) (2 ^ 52)) as [Hc|Hc].
      { rewrite Hpow in Hc. nia. }
      replace (Z.max (L - 52) (-1074)) with (L - 52) by lia.
      unfold Py.scaled.
      destruct (Z.leb_spec 0 (L - 52)) as [?|_]; [lia|].
      fold k.
      pose proof (round_half_even_exact (u * 2 ^ k) 1 ltac:(lia)) as Hr.
      rewrite Z.mul_1_r in Hr. rewrite Hr.
      destruct (Z.ltb_spec 971 (L - 52)) as [?|_]; [lia|].
      destruct (Z.eqb_spec (L - 52) 971) as [?|_]; [lia|]. cbn [andb].
      cbn [Py.round].
      destruct (Z.leb_spec 0 (L - 52)) as [?|_]; [lia|].
      fold k. now rewrite round_half_even_exact.
Qed.

(** X17. An integer literal is stored as it is typed: for every input
    without a comma that [int] reads as [v], with [|v| < 2^53], the
    expression [round(float(price.replace(',', '.')))] of the price handlers
    is [v]. *)
Theorem integer_price_exact (input : string) (v : Z) :
  Py.contains "," input = false ->
  Py.int input = Some v ->
  Z.abs v < 2 ^ 53 ->
  forall W (w : W), round_float input w = Ok v w.
Proof.
  intros Hcomma Hint Hv W w. unfold round_float.
  rewrite (replace_absent _ _ _ Hcomma).
  unfold Py.int in Hint. unfold Py.float_of_string.
  destruct (Py.to_ascii input) as [literal|]; [|discriminate].
  destruct (Py.sign (Py.strip literal)) as [neg body].
  destruct (Py.digitpart 0 body) as [[[u cnt] rest]|] eqn:Hdp; [|discriminate].
  destruct rest as [|c rest]; [|discriminate].
  destruct (cnt <=? Py.int_max_str_digits); [|discriminate].
  injection Hint as <-.
  destruct (digit_not_special _ _ Hdp) as [Hinf Hnan]. rewrite Hinf, Hnan.
  unfold Py.number. rewrite Hdp. cbn [Py.exponent].
  unfold Py.float_of_decimal. change (0 - 0) with 0. change (0 <=? 0) with true.
  cbn beta iota.
  pose proof (digitpart_nonneg _ _ _ _ Hdp) as Hu0.
  rewrite round_binary64_integer; [reflexivity|].
  destruct neg; lia.
Qed.

Lemma integer_price_exact_witness :
  round_float " 1_250 " sample_handlers_world = Ok 1250 sample_handlers_world.
Proof.
  apply (integer_price_exact " 1_250 " 1250); [reflexivity|reflexivity|].
  vm_compute. reflexivity.
Defined.

(** ** Nothing to resolve in the python-telegram-bot integration *)

(** X18. When the update carries no id and the session caches no
    notification, the handlers of the python-telegram-bot integration that
    work on a notification raise [NotificationNotFoundError] and leave the
    world exactly as it was: no store access, no reply, no change of the
    session. *)
Theorem Methods_nothing_to_resolve
    (NOTIFICATION NOTIFICATION_ID : string) (update : Methods.Update)
    (w : Methods.world) (overwrite : bool) :
  Methods.get_callback_variable update NOTIFICATION_ID = "" ->
  Methods_cached NOTIFICATION w = None ->
  Methods.show_notification NOTIFICATION NOTIFICATION_ID update overwrite w
  = Raise NotificationNotFoundError w /\
  Methods.toggle_only_hot NOTIFICATION NOTIFICATION_ID update w
  = Raise NotificationNotFoundError w /\
  Methods.update_query NOTIFICATION NOTIFICATION_ID update w
  = Raise NotificationNotFoundError w /\
  Methods.update_min_price NOTIFICATION NOTIFICATION_ID update w
  = Raise NotificationNotFoundError w /\
  Methods.update_max_price NOTIFICATION NOTIFICATION_ID update w
  = Raise NotificationNotFoundError w.
Proof.
  intros Hs Hc.
  assert (H : Methods.get_notification NOTIFICATION NOTIFICATION_ID update w
              = Raise NotificationNotFoundError w).
  { rewrite (Methods_get_notification_session _ _ _ _ Hs). now rewrite Hc. }
  repeat split.
  - unfold Methods.show_notification. unfold bind at 1. now rewrite H.
  - unfold Methods.toggle_only_hot. unfold bind at 1. now rewrite H.
  - unfold Methods.update_query. unfold bind at 1. now rewrite H.
  - unfold Methods.update_min_price. unfold bind at 1. now rewrite H.
  - unfold Methods.update_max_price. unfold bind at 1. now rewrite H.
Qed.

Lemma Methods_nothing_to_resolve_witness :
  Methods.update_query "notification" "notification_id" (text_update 7 "oled")
    sample_methods_world
  = Raise NotificationNotFoundError sample_methods_world.
Proof.
  odestruct (Methods_nothing_to_resolve "notification" "notification_id"
               (text_update 7 "oled") sample_methods_world true _ _)
    as (_ & _ & H & _); [reflexivity..|].
  exact H.
Defined.

(** ** The cached record and the store *)



